(** * ckanext-cloudstorage: the storage adapter, embedded and verified

    A shallow embedding of [ckanext/cloudstorage/storage.py] and
    [ckanext/cloudstorage/config.py].  Python objects become records, the
    remote container becomes a finite map from object names to objects,
    exceptions become a [result] type, and the libraries the adapter calls
    (hashlib, ckan.lib.munge, mimetypes, libcloud, the provider SDKs) are
    the fields of one interface, [Libraries]. *)

From Stdlib Require Import ZArith NArith List Ascii String Lia DecimalString.
From Stdlib.Strings Require Import Byte.
From stdpp Require Import base option list gmap strings fin_maps.
From Equations Require Import Equations.
From Equations.Prop Require Import Logic.
Import ListNotations.

Local Open Scope string_scope.
Local Open Scope list_scope.
Local Open Scope Z_scope.

#[local] Set Default Proof Using "Type".

(** ** Exceptions and results *)

Inductive exn :=
| ObjectDoesNotExistError
| NotImplementedError
| KeyError (key : string)
| AttributeError (attr : string)
| TypeError
| ValueError
| InvalidCredsError
| binascii_Error.

Inductive result (A : Type) :=
| Ok (a : A)
| Raise (e : exn).
Arguments Ok {A} a.
Arguments Raise {A} e.

Definition bind {A B} (r : result A) (k : A -> result B) : result B :=
  match r with
  | Ok a => k a
  | Raise e => Raise e
  end.

(** [result] is a monad; stdpp's [x ← r; k] sequences calls that may
    raise. *)
#[export] Instance result_ret : MRet result := fun _ a => Ok a.
#[export] Instance result_bind : MBind result := fun _ _ k r => bind r k.

Definition is_ObjectDoesNotExistError (e : exn) : bool :=
  match e with ObjectDoesNotExistError => true | _ => false end.

Definition is_NotImplementedError (e : exn) : bool :=
  match e with NotImplementedError => true | _ => false end.

Definition is_ValueError_or_InvalidCredsError (e : exn) : bool :=
  match e with ValueError | InvalidCredsError => true | _ => false end.

(** ** Bytes, hexadecimal text and decimal text *)

Abbreviation bytes := (list byte).

Definition hex_digit (n : N) : ascii :=
  match n with
  | 0 => "0" | 1 => "1" | 2 => "2" | 3 => "3" | 4 => "4" | 5 => "5"
  | 6 => "6" | 7 => "7" | 8 => "8" | 9 => "9" | 10 => "a" | 11 => "b"
  | 12 => "c" | 13 => "d" | 14 => "e" | _ => "f"
  end%N%char.

Definition hex_value (c : ascii) : option N :=
  let n := N_of_ascii c in
  if ((48 <=? n) && (n <=? 57))%N then Some (n - 48)%N
  else if ((97 <=? n) && (n <=? 102))%N then Some (n - 87)%N
  else if ((65 <=? n) && (n <=? 70))%N then Some (n - 55)%N
  else None.

(** [binascii.hexlify], as text: two lower-case digits per byte. *)
Fixpoint hexlify (data : bytes) : string :=
  match data with
  | [] => EmptyString
  | b :: rest =>
      let n := Byte.to_N b in
      String (hex_digit (n / 16)) (String (hex_digit (n mod 16)) (hexlify rest))
  end.

(** [binascii.unhexlify]: odd length or a non-hex digit raises
    [binascii.Error]. *)
Fixpoint unhexlify (hexstr : string) : result bytes :=
  match hexstr with
  | EmptyString => Ok []
  | String _ EmptyString => Raise binascii_Error
  | String hi (String lo rest) =>
      match hex_value hi, hex_value lo with
      | Some h, Some l =>
          match Byte.of_N (16 * h + l) with
          | Some b =>
              match unhexlify rest with
              | Ok tail => Ok (b :: tail)
              | Raise e => Raise e
              end
          | None => Raise binascii_Error
          end
      | _, _ => Raise binascii_Error
      end
  end.

(** [str(n)] for a Python int. *)
Definition str (n : Z) : string := NilZero.string_of_int (Z.to_int n).

(** [bool(s)] for a Python str and for bytes. *)
Definition str_truthy (s : string) : bool :=
  match s with EmptyString => false | String _ _ => true end.

Definition bytes_truthy (b : bytes) : bool :=
  match b with [] => false | _ :: _ => true end.

(** [needle in haystack] for Python strs. *)
Fixpoint str_contains (needle haystack : string) : bool :=
  String.prefix needle haystack
  || match haystack with
     | EmptyString => false
     | String _ rest => str_contains needle rest
     end.

Definition startswith (s p : string) : bool := String.prefix p s.

Fixpoint endswith_char (s : string) (c : ascii) : bool :=
  match s with
  | EmptyString => false
  | String x EmptyString => Ascii.eqb x c
  | String _ rest => endswith_char rest c
  end.

(** ** [os.path.join] (posixpath) *)

Definition sep : string := "/".

Definition join_step (path b : string) : string :=
  if startswith b sep then b
  else if negb (str_truthy path) || endswith_char path "/" then path +:+ b
  else path +:+ sep +:+ b.

Definition os_path_join (a : string) (p : list string) : string :=
  fold_left join_step p a.

(** ** Binary streams

    A seekable binary file object: its bytes and the cursor.  Only the
    operations the adapter uses are modelled. *)

Record stream := Stream { contents : bytes; position : nat }.

Definition unread (f : stream) : bytes := drop (position f) (contents f).

Fixpoint take_N {A} (n : N) (l : list A) : list A :=
  match l with
  | [] => []
  | x :: rest => if (n =? 0)%N then [] else x :: take_N (N.pred n) rest
  end.

Fixpoint drop_N {A} (n : N) (l : list A) : list A :=
  match l with
  | [] => []
  | x :: rest => if (n =? 0)%N then l else drop_N (N.pred n) rest
  end.

Definition advance (f : stream) (n : nat) : stream :=
  {| contents := contents f; position := position f + n |}.

(** [f.read(size)] for [size >= 0]: the block read and the moved stream. *)
Definition read (f : stream) (size : N) : bytes * stream :=
  let block := take_N size (unread f) in
  (block, advance f (length block)).

(** [f.read()]: everything up to the end. *)
Definition read_all (f : stream) : bytes * stream :=
  let block := unread f in
  (block, advance f (length block)).

(** [f.seek(0, os.SEEK_SET)], [f.seek(0, os.SEEK_END)] and [f.tell()]. *)
Definition seek_set0 (f : stream) : stream :=
  {| contents := contents f; position := 0 |}.

Definition seek_end0 (f : stream) : stream :=
  {| contents := contents f; position := length (contents f) |}.

Definition tell (f : stream) : Z := Z.of_nat (position f).

(** [io.BytesIO(data)]: a fresh stream at offset 0. *)
Definition BytesIO (data : bytes) : stream := Stream data 0.

(** ** MD5 (RFC 1321)

    The digest [hashlib.md5] computes, for running the adapter on concrete
    inputs.  The adapter itself takes the digest from [Libraries]. *)

Module MD5.

Definition mask32 (x : Z) : Z := x mod 2 ^ 32.

Definition rotl32 (x : Z) (c : Z) : Z :=
  mask32 (Z.lor (Z.shiftl x c) (Z.shiftr (mask32 x) (32 - c))).

Definition not32 (x : Z) : Z := Z.lxor (mask32 x) (2 ^ 32 - 1).

Definition K : list Z :=
  [ 0xd76aa478; 0xe8c7b756; 0x242070db; 0xc1bdceee; 0xf57c0faf; 0x4787c62a;
    0xa8304613; 0xfd469501; 0x698098d8; 0x8b44f7af; 0xffff5bb1; 0x895cd7be;
    0x6b901122; 0xfd987193; 0xa679438e; 0x49b40821; 0xf61e2562; 0xc040b340;
    0x265e5a51; 0xe9b6c7aa; 0xd62f105d; 0x02441453; 0xd8a1e681; 0xe7d3fbc8;
    0x21e1cde6; 0xc33707d6; 0xf4d50d87; 0x455a14ed; 0xa9e3e905; 0xfcefa3f8;
    0x676f02d9; 0x8d2a4c8a; 0xfffa3942; 0x8771f681; 0x6d9d6122; 0xfde5380c;
    0xa4beea44; 0x4bdecfa9; 0xf6bb4b60; 0xbebfbc70; 0x289b7ec6; 0xeaa127fa;
    0xd4ef3085; 0x04881d05; 0xd9d4d039; 0xe6db99e5; 0x1fa27cf8; 0xc4ac5665;
    0xf4292244; 0x432aff97; 0xab9423a7; 0xfc93a039; 0x655b59c3; 0x8f0ccc92;
    0xffeff47d; 0x85845dd1; 0x6fa87e4f; 0xfe2ce6e0; 0xa3014314; 0x4e0811a1;
    0xf7537e82; 0xbd3af235; 0x2ad7d2bb; 0xeb86d391 ].

Definition S : list Z :=
  [ 7; 12; 17; 22; 7; 12; 17; 22; 7; 12; 17; 22; 7; 12; 17; 22;
    5; 9; 14; 20; 5; 9; 14; 20; 5; 9; 14; 20; 5; 9; 14; 20;
    4; 11; 16; 23; 4; 11; 16; 23; 4; 11; 16; 23; 4; 11; 16; 23;
    6; 10; 15; 21; 6; 10; 15; 21; 6; 10; 15; 21; 6; 10; 15; 21 ].

Definition byte_val (b : byte) : Z := Z.of_N (Byte.to_N b).

Definition byte_of (z : Z) : byte :=
  match Byte.of_N (Z.to_N (z mod 256)) with
  | Some b => b
  | None => x00
  end.

(** Little-endian encodings. *)
Fixpoint le_bytes (n : nat) (z : Z) : bytes :=
  match n with
  | O => []
  | Datatypes.S n' => byte_of z :: le_bytes n' (Z.shiftr z 8)
  end.

Fixpoint le_value (l : bytes) : Z :=
  match l with
  | [] => 0
  | b :: rest => byte_val b + 256 * le_value rest
  end.

Fixpoint words (n : nat) (block : bytes) : list Z :=
  match n with
  | O => []
  | Datatypes.S n' => le_value (take 4 block) :: words n' (drop 4 block)
  end.

Definition pad (msg : bytes) : bytes :=
  let len := Z.of_nat (length msg) in
  let zeros := Z.to_nat ((55 - len) mod 64) in
  msg ++ [x80] ++ repeat x00 zeros ++ le_bytes 8 ((8 * len) mod 2 ^ 64).

Definition state : Type := Z * Z * Z * Z.

Definition round (M : list Z) (st : state) (i : nat) : state :=
  let '(a, b, c, d) := st in
  let iz := Z.of_nat i in
  let '(f, g) :=
    if iz <? 16 then (Z.lor (Z.land b c) (Z.land (not32 b) d), iz)
    else if iz <? 32 then
      (Z.lor (Z.land d b) (Z.land (not32 d) c), (5 * iz + 1) mod 16)
    else if iz <? 48 then (Z.lxor (Z.lxor b c) d, (3 * iz + 5) mod 16)
    else (Z.lxor c (Z.lor b (not32 d)), (7 * iz) mod 16) in
  let f' := mask32 (f + a + nth i K 0 + nth (Z.to_nat g) M 0) in
  (d, mask32 (b + rotl32 f' (nth i S 0)), b, c).

Definition compress (st : state) (block : bytes) : state :=
  let '(a0, b0, c0, d0) := st in
  let '(a, b, c, d) := fold_left (round (words 16 block)) (seq 0 64) st in
  (mask32 (a0 + a), mask32 (b0 + b), mask32 (c0 + c), mask32 (d0 + d)).

Fixpoint process (n : nat) (l : bytes) (st : state) : state :=
  match n with
  | O => st
  | Datatypes.S n' => process n' (drop 64 l) (compress st (take 64 l))
  end.

Definition init : state := (0x67452301, 0xefcdab89, 0x98badcfe, 0x10325476).

Definition digest (msg : bytes) : bytes :=
  let padded := pad msg in
  let '(a, b, c, d) := process (length padded / 64)%nat padded init in
  le_bytes 4 a ++ le_bytes 4 b ++ le_bytes 4 c ++ le_bytes 4 d.

Definition hexdigest (msg : bytes) : string := hexlify (digest msg).

End MD5.

Definition encode (s : string) : bytes := list_byte_of_string s.

(** ** The libraries behind the adapter

    What the adapter imports and does not define: each field is the
    function of that name in the library named beside it. *)

Record CloudObject := {
  obj_name : string;
  obj_size : Z;
  obj_hash : string;
  obj_extra : gmap string string;
  obj_data : bytes;
}.

Class Libraries := {
  (** [hashlib.md5(data).digest()] *)
  md5_digest : bytes -> bytes;
  (** [ckan.lib.munge.munge_filename] *)
  munge_filename : string -> string;
  (** [mimetypes.guess_type(name)[0]] *)
  guess_type : string -> option string;
  (** the hash the provider records for an object it has just stored *)
  provider_hash : bytes -> string;
  (** [driver.get_object_cdn_url]; the base driver raises
      [NotImplementedError] *)
  get_object_cdn_url : CloudObject -> result string;
  (** [urllib.parse.urljoin] *)
  urljoin : string -> string -> string;
}.

(** [hashlib.md5(data).hexdigest()] *)
Definition hexdigest `{Libraries} (data : bytes) : string :=
  hexlify (md5_digest data).

(** ** [_md5sum] *)

Definition AWS_UPLOAD_PART_SIZE : N := 5 * 1024 * 1024.

Section md5sum.
Context `{Libraries}.

(** The [while block:] loop, one call per iteration; [block_count] and
    [md5string] are the loop's variables. *)
Equations? md5sum_loop (fobj : stream) (block_count : Z) (md5string : bytes)
  : result (Z * bytes * stream) by wf (length (unread fobj)) lt :=
  md5sum_loop fobj block_count md5string with
      inspect (bytes_truthy (fst (read fobj AWS_UPLOAD_PART_SIZE))) => {
    | exist _ false _ :=
        Ok (block_count, md5string, snd (read fobj AWS_UPLOAD_PART_SIZE));
    | exist _ true Hblock with
          unhexlify (hexdigest (fst (read fobj AWS_UPLOAD_PART_SIZE))) => {
        | Raise e := Raise e;
        | Ok raw :=
            md5sum_loop (snd (read fobj AWS_UPLOAD_PART_SIZE))
                        (block_count + 1) (md5string ++ raw) } }.
Proof.
  (* a truthy block moves the cursor: less is left to read *)
  revert Hblock. generalize AWS_UPLOAD_PART_SIZE as size. intros size.
  unfold read, unread, advance; simpl.
  destruct (drop (position fobj) (contents fobj)) as [|x rest] eqn:E; simpl.
  - discriminate.
  - destruct (size =? 0)%N; simpl; [discriminate|].
    intros _. rewrite <- drop_drop, E. simpl.
    rewrite length_drop. lia.
Qed.

Definition _md5sum (fobj : stream) : result (string * stream) :=
  '(block_count, md5string, fobj) ← md5sum_loop fobj 0 [];
  let fobj := seek_set0 fobj in
  Ok (hexdigest md5string +:+ "-" +:+ str block_count, fobj).

End md5sum.

(** ** config.py

    [tk_config] holds the values CKAN's [tk.config] has under the seven keys
    of config.py, at the types config.py annotates ([OPTIONS] after
    [literal_eval]). *)

Record tk_config := {
  OPTIONS : gmap string string;
  DRIVER : string;
  CONTAINER : string;
  SECURE_TTL : Z;
  USE_SECURE : bool;
  LEAVE_FILES : bool;
  GUESS_MIMETYPE : bool;
}.

Module config.
Definition options (tk : tk_config) : gmap string string := OPTIONS tk.
Definition driver (tk : tk_config) : string := DRIVER tk.
Definition container (tk : tk_config) : string := CONTAINER tk.
Definition secure_ttl (tk : tk_config) : Z := SECURE_TTL tk.
Definition use_secure (tk : tk_config) : bool := USE_SECURE tk.
Definition leave_files (tk : tk_config) : bool := LEAVE_FILES tk.
Definition guess_mimetype (tk : tk_config) : bool := GUESS_MIMETYPE tk.
End config.

(** ** The process environment

    What the adapter reads from outside itself and never writes. *)

Record environment := {
  (** [tk.config] *)
  tk : tk_config;
  (** does [from azure import storage] succeed *)
  azure_storage_installed : bool;
  (** does [import boto3] succeed *)
  boto3_installed : bool;
  (** the regular files [os.path.isfile] finds, with [os.path.getsize] *)
  local_files : gmap string Z;
  (** [datetime.utcnow()], in seconds *)
  utcnow : Z;
  (** [model.Resource] rows: the url stored for a resource id *)
  db_resource_url : gmap string string;
  (** [self.driver.connection.host] *)
  connection_host : string;
}.

(** ** Python values of the resource dict *)

Inductive value :=
| VNone
| VBool (b : bool)
| VInt (n : Z)
| VStr (s : string)
| VDatetime (t : Z)
(** [cgi.FieldStorage]: [.filename], [.file] *)
| VFieldStorage (filename : option string) (file : stream)
(** [werkzeug.datastructures.FileStorage]: [.filename], [.stream] *)
| VFlaskFileStorage (filename : option string) (stream : stream).

Definition truthy (v : value) : bool :=
  match v with
  | VNone => false
  | VBool b => b
  | VInt n => negb (n =? 0)
  | VStr s => str_truthy s
  | _ => true
  end.

Definition opt_truthy (s : option string) : bool :=
  match s with Some s => str_truthy s | None => false end.

(** [isinstance(v, ALLOWED_UPLOAD_TYPES)] *)
Definition is_allowed_upload_type (v : value) : bool :=
  match v with
  | VFieldStorage _ _ | VFlaskFileStorage _ _ => true
  | _ => false
  end.

Definition upload_filename (v : value) : option string :=
  match v with
  | VFieldStorage fn _ | VFlaskFileStorage fn _ => fn
  | _ => None
  end.

Definition _get_underlying_file (wrapper : value) : result stream :=
  match wrapper with
  | VFlaskFileStorage _ s => Ok s
  | VFieldStorage _ f => Ok f
  | _ => Raise (AttributeError "file")
  end.

(** [d[k]] and [k in d] *)
Definition getitem {A} (d : gmap string A) (k : string) : result A :=
  match d !! k with Some v => Ok v | None => Raise (KeyError k) end.

Definition has_key {A} (d : gmap string A) (k : string) : bool :=
  match d !! k with Some _ => true | None => false end.

(** ** What the provider SDKs hand back

    The signing itself happens inside azure-storage and boto3; a signed URL
    is kept as the call that produced it. *)

Record BlockBlobService := { account_name : string; account_key : string }.

Inductive BlobPermissions := READ.

Record shared_access_signature := {
  sas_container_name : string;
  sas_blob_name : string;
  sas_expiry : Z;
  sas_permission : BlobPermissions;
}.

Record s3_client := {
  aws_access_key_id : string;
  aws_secret_access_key : string;
  signature_version : string;
  region_name : option string;
  endpoint_url : option string;
}.

Inductive url :=
(** [blob_service.make_blob_url(container_name, blob_name, sas_token)] *)
| make_blob_url (svc : BlockBlobService) (container_name blob_name : string)
    (sas_token : shared_access_signature)
(** [s3.generate_presigned_url(ClientMethod, Params = {Bucket, Key}, ExpiresIn)] *)
| generate_presigned_url (s3 : s3_client) (ClientMethod Bucket Key : string)
    (ExpiresIn : Z)
(** a URL that arrives as a plain str *)
| url_str (s : string).

Inductive upload_return :=
| RNone
(** what [create_blob_from_stream] returns for the named blob *)
| RBlobProperties (blob_name : string).

(** ** The adapter object and the remote container *)

Record ResourceCloudStorage := {
  filename : option string;
  old_filename : option string;
  file : option stream;
  resource : gmap string value;
  _clear : value;
  (** [None]: the attribute was never set *)
  file_upload : option stream;
}.

(** The calls the adapter makes on the container and on the Azure SDK. *)
Inductive call :=
| get_object_call (object_name : string)
| delete_object_call (object_name : string)
| upload_object_via_stream_call (object_name : string) (data : bytes)
| create_blob_from_stream_call (container_name blob_name : string)
    (data : bytes) (content_settings : option string).

Record state := {
  self : ResourceCloudStorage;
  (** the objects of the configured container, each filed under its name;
      nothing below depends on the names agreeing *)
  remote : gmap string CloudObject;
  (** the calls made so far, oldest first *)
  calls : list call;
}.

(** Calls that move the stream, change the container or raise. *)
Definition M (A : Type) : Type := state -> result A * state.

#[export] Instance M_ret : MRet M := fun _ a st => (Ok a, st).
#[export] Instance M_bind : MBind M := fun _ _ k m st =>
  match m st with
  | (Ok a, st') => k a st'
  | (Raise e, st') => (Raise e, st')
  end.

Definition raise {A} (e : exn) : M A := fun st => (Raise e, st).

Definition lift {A} (r : result A) : M A := fun st => (r, st).

(** [try: body / except <catches> as err: handler err] *)
Definition try_catch {A} (body : M A) (catches : exn -> bool)
    (handler : exn -> M A) : M A := fun st =>
  match body st with
  | (Ok a, st') => (Ok a, st')
  | (Raise e, st') => if catches e then handler e st' else (Raise e, st')
  end.

Definition set_file_upload (f : stream) (st : state) : state :=
  {| self := {| filename := filename (self st);
                old_filename := old_filename (self st);
                file := file (self st);
                resource := resource (self st);
                _clear := _clear (self st);
                file_upload := Some f |};
     remote := remote st; calls := calls st |}.

Definition log (c : call) (st : state) : state :=
  {| self := self st; remote := remote st; calls := calls st ++ [c] |}.

Definition set_remote (r : gmap string CloudObject) (st : state) : state :=
  {| self := self st; remote := r; calls := calls st |}.

(** Evaluate [self.file_upload]. *)
Definition self_file_upload : M stream := fun st =>
  match file_upload (self st) with
  | Some f => (Ok f, st)
  | None => (Raise (AttributeError "file_upload"), st)
  end.

(** Run a stream operation on the file object behind [self.file_upload]. *)
Definition on_file_upload {A} (op : stream -> result (A * stream)) : M A :=
  fun st =>
    match file_upload (self st) with
    | Some f =>
        match op f with
        | Ok (a, f') => (Ok a, set_file_upload f' st)
        | Raise e => (Raise e, st)
        end
    | None => (Raise (AttributeError "file_upload"), st)
    end.

(** *** libcloud's container *)

Definition new_object `{Libraries} (name : string) (data : bytes)
    (extra : gmap string string) : CloudObject :=
  {| obj_name := name; obj_size := Z.of_nat (length data);
     obj_hash := provider_hash data; obj_extra := extra; obj_data := data |}.

Definition get_object (object_name : string) : M CloudObject := fun st =>
  let st := log (get_object_call object_name) st in
  match remote st !! object_name with
  | Some o => (Ok o, st)
  | None => (Raise ObjectDoesNotExistError, st)
  end.

Definition delete_object (obj : CloudObject) : M bool := fun st =>
  let st := log (delete_object_call (obj_name obj)) st in
  match remote st !! obj_name obj with
  | Some _ => (Ok true, set_remote (delete (obj_name obj) (remote st)) st)
  | None => (Raise ObjectDoesNotExistError, st)
  end.

(** The provider stores [o] under its name; [c] is the call that asked. *)
Definition store (c : call) (o : CloudObject) : M CloudObject := fun st =>
  (Ok o, set_remote (<[obj_name o := o]> (remote st)) (log c st)).

(** [container.upload_object_via_stream(iterator, object_name)], the
    iterator running over the file object behind [self.file_upload]: it
    yields what is left to read. *)
Definition upload_object_via_stream `{Libraries} (object_name : string)
    : M CloudObject :=
  data ← on_file_upload (fun f => Ok (read_all f));
  store (upload_object_via_stream_call object_name data)
        (new_object object_name data ∅).

(** [blob_service.create_blob_from_stream(container_name, blob_name, stream,
    content_settings)] with [stream = self.file_upload]; the blob lands in
    the same remote container. *)
Definition create_blob_from_stream `{Libraries} (svc : BlockBlobService)
    (container_name blob_name : string) (content_settings : option string)
    : M upload_return :=
  data ← on_file_upload (fun f => Ok (read_all f));
  let extra : gmap string string :=
    match content_settings with
    | Some ct => {[ "content_type" := ct ]}
    | None => ∅
    end in
  _ ← store (create_blob_from_stream_call container_name blob_name data
               content_settings)
            (new_object blob_name data extra);
  mret (RBlobProperties blob_name).

(** ** class CloudStorage

    The driver and the container are taken as already obtained:
    [get_driver] and [driver.get_container] are libcloud's, and the
    container is the map [remote]. *)

Section CloudStorage.
Context (env : environment).

Definition driver_options : gmap string string := config.options (tk env).
Definition driver_name : string := config.driver (tk env).
Definition container_name : string := config.container (tk env).
Definition use_secure_urls : bool := config.use_secure (tk env).
Definition leave_files : bool := config.leave_files (tk env).
Definition guess_mimetype : bool := config.guess_mimetype (tk env).

Definition can_use_advanced_azure : bool :=
  if String.eqb driver_name "AZURE_BLOBS" then
    if azure_storage_installed env then true else false
  else false.

Definition can_use_advanced_aws : bool :=
  if str_contains "S3" driver_name then
    if negb (has_key driver_options "host") then false
    else if boto3_installed env then true else false
  else false.

Definition config_secure_ttl : Z := config.secure_ttl (tk env).

End CloudStorage.

(** ** class ResourceCloudStorage *)

Section ResourceCloudStorage.
Context `{Libraries} (env : environment).

(** [__init__(self, resource)]: the new object, whose [resource] is the
    caller's dict after the three [pop]s and the assignments. *)
Definition __init__ (resource : gmap string value) : result ResourceCloudStorage :=
  let upload_field_storage := default VNone (resource !! "upload") in
  let resource := delete "upload" resource in
  let clear := default VNone (resource !! "clear_upload") in
  let resource := delete "clear_upload" resource in
  let multipart_name := default VNone (resource !! "multipart_name") in
  let resource := delete "multipart_name" resource in
  if is_allowed_upload_type upload_field_storage
     && opt_truthy (upload_filename upload_field_storage) then
    let fname := munge_filename (default "" (upload_filename upload_field_storage)) in
    f ← _get_underlying_file upload_field_storage;
    let resource := <["url" := VStr fname]> resource in
    let resource := <["url_type" := VStr "upload"]> resource in
    let resource := <["last_modified" := VDatetime (utcnow env)]> resource in
    Ok {| filename := Some fname; old_filename := None; file := None;
          resource := resource; _clear := clear; file_upload := Some f |}
  else if truthy multipart_name && can_use_advanced_aws env then
    match multipart_name with
    | VStr name =>
        let resource := <["url" := VStr (munge_filename name)]> resource in
        let resource := <["url_type" := VStr "upload"]> resource in
        let resource := <["last_modified" := VDatetime (utcnow env)]> resource in
        Ok {| filename := None; old_filename := None; file := None;
              resource := resource; _clear := clear; file_upload := None |}
    | _ => Raise TypeError
    end
  else if truthy clear && truthy (default VNone (resource !! "id")) then
    let old_resource :=
      match resource !! "id" with
      | Some (VStr rid) => db_resource_url env !! rid
      | _ => None
      end in
    match old_resource with
    | Some old_url =>
        let resource := <["url_type" := VStr ""]> resource in
        Ok {| filename := None; old_filename := Some old_url; file := None;
              resource := resource; _clear := clear; file_upload := None |}
    | None => Raise (AttributeError "url")
    end
  else
    Ok {| filename := None; old_filename := None; file := None;
          resource := resource; _clear := clear; file_upload := None |}.

Definition path_from_filename (rid fname : string) : string :=
  os_path_join "resources" [rid; munge_filename fname].

(** The size [upload] compares with the stored object's: lines 283-288. *)
Definition measure_file_size (fname : string) : M Z :=
  match local_files env !! fname with
  | Some n => mret n
  | None =>
      _ ← on_file_upload (fun f => Ok (tt, seek_end0 f));
      file_size ← on_file_upload (fun f => Ok (tell f, f));
      _ ← on_file_upload (fun f => Ok (tt, seek_set0 f));
      mret file_size
  end.

(** The body of the inner [try] of [upload], lines 275-324: [true] when
    it leaves through one of its two [return]s, [false] when it falls
    through to the upload. *)
Definition check_already_uploaded (fname object_name : string) : M bool :=
  cloud_object ← get_object object_name;
  file_size ← measure_file_size fname;
  if file_size =? obj_size cloud_object then
    data ← on_file_upload (fun f => Ok (read_all f));
    let hash_file := hexdigest data in
    _ ← on_file_upload (fun f => Ok (tt, seek_set0 f));
    if String.eqb hash_file (obj_hash cloud_object) then mret true
    else
      multi_hash_file ← on_file_upload _md5sum;
      if String.eqb multi_hash_file (obj_hash cloud_object) then mret true
      else mret false
  else mret false.

(** [upload(self, id, max_size=10)]; [max_size] is ignored, as the
    docstring says.  The two [return]s inside the inner [try] are the
    [true] of [check_already_uploaded]. *)
Definition upload (id : string) : M upload_return := fun st =>
  let this := self st in
  (if opt_truthy (filename this) then
     let fname := default "" (filename this) in
     if can_use_advanced_azure env then
       key ← lift (getitem (driver_options env) "key");
       secret ← lift (getitem (driver_options env) "secret");
       let blob_service := {| account_name := key; account_key := secret |} in
       let content_settings :=
         if guess_mimetype env then
           match guess_type fname with
           | Some content_type =>
               if str_truthy content_type then Some content_type else None
           | None => None
           end
         else None in
       _ ← self_file_upload;
       create_blob_from_stream blob_service (container_name env)
         (path_from_filename id fname) content_settings
     else
       try_catch
         (_ ← self_file_upload;
          let object_name := path_from_filename id fname in
          already ← try_catch (check_already_uploaded fname object_name)
                      is_ObjectDoesNotExistError (fun _ => mret false);
          if already : bool then mret RNone
          else
            (* a SpooledTemporaryFile is rolled over and its underlying
               file detached, any other file object is wrapped by [iter]:
               either way the iterator runs over the same file object *)
            _ ← upload_object_via_stream object_name;
            mret RNone)
         is_ValueError_or_InvalidCredsError
         (fun err => raise err)
   else if truthy (_clear this) && opt_truthy (old_filename this)
           && negb (leave_files env) then
     try_catch
       (obj ← get_object (path_from_filename id (default "" (old_filename this)));
        _ ← delete_object obj;
        mret RNone)
       is_ObjectDoesNotExistError
       (fun _ => mret RNone)
   else mret RNone) st.

(** [get_url_by_path(self, path, content_type=None)]; [content_type] is
    never used.  [get_object] returns an object or raises, so the
    [if obj is None] of line 436 has nothing of its own to do. *)
Definition get_url_by_path (path : string) : M (option url) :=
  if can_use_advanced_azure env && use_secure_urls env then
    key ← lift (getitem (driver_options env) "key");
    secret ← lift (getitem (driver_options env) "secret");
    let blob_service := {| account_name := key; account_key := secret |} in
    mret (Some (make_blob_url blob_service (container_name env) path
                  {| sas_container_name := container_name env;
                     sas_blob_name := path;
                     sas_expiry := utcnow env + config_secure_ttl env;
                     sas_permission := READ |}))
  else if can_use_advanced_aws env && use_secure_urls env then
    key ← lift (getitem (driver_options env) "key");
    secret ← lift (getitem (driver_options env) "secret");
    let region := driver_options env !! "region" in
    let s3 :=
      {| aws_access_key_id := key;
         aws_secret_access_key := secret;
         signature_version := "s3v4";
         region_name := region;
         endpoint_url :=
           (fun r => "https://s3." +:+ r +:+ ".amazonaws.com") <$> region |} in
    mret (Some (generate_presigned_url s3 "get_object" (container_name env)
                  path (config_secure_ttl env)))
  else
    found ← try_catch (obj ← get_object path; mret (Some obj))
              is_ObjectDoesNotExistError (fun _ => mret None);
    match found with
    | None => mret None
    | Some obj =>
        try_catch
          (u ← lift (get_object_cdn_url obj); mret (Some (url_str u)))
          is_NotImplementedError
          (fun err =>
             if str_contains "S3" (driver_name env) then
               mret (Some (url_str
                 (urljoin ("https://" +:+ connection_host env)
                          (container_name env +:+ "/" +:+ path))))
             else if has_key (obj_extra obj) "url" then
               u ← lift (getitem (obj_extra obj) "url");
               mret (Some (url_str u))
             else raise err)
    end.

Definition get_url_from_filename (rid fname : string) : M (option url) :=
  let path := path_from_filename rid fname in
  get_url_by_path path.

End ResourceCloudStorage.

(** ** Definitions that follow the specification's words

    The multipart digest as the specification describes it, and the
    condition under which an upload is skipped; the theorems below compare
    them with [_md5sum] and [upload]. *)

(** The consecutive [size]-byte blocks of [data], the last one shorter when
    [data] does not divide evenly; none are empty. *)
Equations? blocks (size : N) (data : bytes) : list bytes by wf (length data) lt :=
  blocks size [] := [];
  blocks size (b :: rest) with inspect (size =? 0)%N => {
    | exist _ true _ := [];
    | exist _ false Hsize :=
        take_N size (b :: rest) :: blocks size (drop_N size (b :: rest)) }.
Proof.
  simpl. rewrite Hsize. clear. generalize (N.pred size). intros n.
  revert n. induction rest as [|x rest IH]; intros n; simpl; [lia|].
  destruct (n =? 0)%N; simpl; [lia|]. specialize (IH (N.pred n)). lia.
Qed.

Section Specification.
Context `{Libraries} (env : environment).

(** The MD5 hex digest of the concatenated raw digests of the blocks, then
    "-" and the number of blocks. *)
Definition multipart_digest (data : bytes) : string :=
  let parts := blocks AWS_UPLOAD_PART_SIZE data in
  hexdigest (mjoin (md5_digest <$> parts))
  +:+ "-" +:+ str (Z.of_nat (length parts)).

(** The size [upload] takes for the file: that of a local file named like
    the upload where [os.path.isfile] finds one, else the length of the
    uploaded bytes. *)
Definition measured_size (fname : string) (data : bytes) : Z :=
  match local_files env !! fname with
  | Some n => n
  | None => Z.of_nat (length data)
  end.

(** The stored object [o] passes for the upload [data]. *)
Definition already_uploaded (fname : string) (data : bytes) (o : CloudObject)
  : bool :=
  (measured_size fname data =? obj_size o)
  && (String.eqb (hexdigest data) (obj_hash o)
      || String.eqb (multipart_digest data) (obj_hash o)).

(** [upload] asked for the object and left the container alone. *)
Definition skipped (object_name : string) (st st' : state) : Prop :=
  remote st' = remote st /\
  calls st' = calls st ++ [get_object_call object_name].

(** [upload] asked for the object, then stored [data] under that name
    through [upload_object_via_stream]. *)
Definition uploaded (object_name : string) (data : bytes) (st st' : state)
  : Prop :=
  remote st' = <[object_name := new_object object_name data ∅]> (remote st) /\
  calls st' = calls st ++ [get_object_call object_name;
                           upload_object_via_stream_call object_name data].



(** Does a secure-URL branch of [get_url_by_path] apply. *)
Definition secure_branch : bool :=
  use_secure_urls env
  && (can_use_advanced_azure env || can_use_advanced_aws env).

(** What [get_url_by_path] makes of an object it found when no secure-URL
    branch applies: the driver's CDN URL; where the driver has none, the
    bucket URL for an S3 driver, else the object's extra "url", else the
    driver's [NotImplementedError]. *)
Definition unsigned_url (path : string) (obj : CloudObject)
  : result (option url) :=
  match get_object_cdn_url obj with
  | Ok u => Ok (Some (url_str u))
  | Raise NotImplementedError =>
      if str_contains "S3" (driver_name env) then
        Ok (Some (url_str (urljoin ("https://" +:+ connection_host env)
                                   (container_name env +:+ "/" +:+ path))))
      else
        match obj_extra obj !! "url" with
        | Some u => Ok (Some (url_str u))
        | None => Raise NotImplementedError
        end
  | Raise e => Raise e
  end.

(** No call in [new] deletes an object. *)
Definition no_delete (new : list call) : Prop :=
  forall name, delete_object_call name ∉ new.

(** Every object of the container before is still there after. *)
Definition nothing_removed (st st' : state) : Prop :=
  forall name, is_Some (remote st !! name) -> is_Some (remote st' !! name).



End Specification.

(** ** A concrete instance of the libraries

    Real MD5 and a provider that records the MD5 hex digest; the other
    entries are simple stand-ins, enough to run the adapter on examples. *)

Definition example_libraries : Libraries := {|
  md5_digest := MD5.digest;
  munge_filename := fun s => s;
  guess_type := fun _ => None;
  provider_hash := MD5.hexdigest;
  get_object_cdn_url := fun _ => Raise NotImplementedError;
  urljoin := fun a b => a +:+ "/" +:+ b;
|}.


(** ** Example inputs *)

Module Ex.

Definition tk_s3 : tk_config := {|
  OPTIONS := {[ "key" := "AKIA"; "secret" := "s3cr3t" ]};
  DRIVER := "S3";
  CONTAINER := "bucket";
  SECURE_TTL := 3600;
  USE_SECURE := false;
  LEAVE_FILES := false;
  GUESS_MIMETYPE := false;
|}.

(** An S3 deployment without secure URLs; no file in the working
    directory. *)
Definition env : environment := {|
  tk := tk_s3;
  azure_storage_installed := false;
  boto3_installed := true;
  local_files := ∅;
  utcnow := 1700000000;
  db_resource_url := {[ "rid" := "old.csv" ]};
  connection_host := "s3.amazonaws.com";
|}.

(** The same, with a ten-byte file named data.csv in the working
    directory. *)
Definition env_local_file : environment := {|
  tk := tk_s3;
  azure_storage_installed := false;
  boto3_installed := true;
  local_files := {[ "data.csv" := 10 ]};
  utcnow := 1700000000;
  db_resource_url := {[ "rid" := "old.csv" ]};
  connection_host := "s3.amazonaws.com";
|}.

(** An S3 deployment with a host option, boto3 and secure URLs. *)
Definition env_secure : environment := {|
  tk := {| OPTIONS := {[ "key" := "AKIA"; "secret" := "s3cr3t";
                         "host" := "s3.eu-west-1.amazonaws.com";
                         "region" := "eu-west-1" ]};
           DRIVER := "S3_EU_WEST";
           CONTAINER := "bucket";
           SECURE_TTL := 3600;
           USE_SECURE := true;
           LEAVE_FILES := true;
           GUESS_MIMETYPE := false |};
  azure_storage_installed := false;
  boto3_installed := true;
  local_files := ∅;
  utcnow := 1700000000;
  db_resource_url := ∅;
  connection_host := "s3.eu-west-1.amazonaws.com";
|}.

(** An Azure deployment with azure-storage and secure URLs. *)
Definition env_azure : environment := {|
  tk := {| OPTIONS := {[ "key" := "account"; "secret" := "s3cr3t" ]};
           DRIVER := "AZURE_BLOBS";
           CONTAINER := "bucket";
           SECURE_TTL := 600;
           USE_SECURE := true;
           LEAVE_FILES := false;
           GUESS_MIMETYPE := true |};
  azure_storage_installed := true;
  boto3_installed := false;
  local_files := ∅;
  utcnow := 1700000000;
  db_resource_url := ∅;
  connection_host := "account.blob.core.windows.net";
|}.

Definition abc : bytes := encode "abc".

(** The resource dict of an upload of data.csv, three bytes long. *)
Definition resource_with_upload : gmap string value :=
  {[ "id" := VStr "rid";
     "upload" := VFlaskFileStorage (Some "data.csv") (BytesIO abc) ]}.

(** The adapter [__init__] makes of it. *)
Definition uploader : ResourceCloudStorage := {|
  filename := Some "data.csv";
  old_filename := None;
  file := None;
  resource := {[ "id" := VStr "rid"; "url" := VStr "data.csv";
                 "url_type" := VStr "upload";
                 "last_modified" := VDatetime 1700000000 ]};
  _clear := VNone;
  file_upload := Some (BytesIO abc);
|}.

(** The adapter of a resource whose upload was cleared. *)
Definition clearer : ResourceCloudStorage := {|
  filename := None;
  old_filename := Some "old.csv";
  file := None;
  resource := {[ "id" := VStr "rid"; "url_type" := VStr "" ]};
  _clear := VBool true;
  file_upload := None;
|}.

Definition object_name : string := "resources/rid/data.csv".

(** data.csv as the provider holds it after an earlier upload. *)
Definition stored_abc : CloudObject :=
  @new_object example_libraries object_name abc ∅.

(** old.csv, the upload that was replaced by a link. *)
Definition old_object_name : string := "resources/rid/old.csv".

Definition stored_old : CloudObject :=
  @new_object example_libraries old_object_name abc ∅.

Definition container_with_old (this : ResourceCloudStorage) : state :=
  {| self := this; remote := {[ old_object_name := stored_old ]}; calls := [] |}.

Definition empty_container (this : ResourceCloudStorage) : state :=
  {| self := this; remote := ∅; calls := [] |}.

Definition container_with_abc (this : ResourceCloudStorage) : state :=
  {| self := this; remote := {[ object_name := stored_abc ]}; calls := [] |}.

End Ex.

(** ** The rest of the two classes

    [CloudStorage.container], [CloudStorage.path_from_filename] and
    [ResourceCloudStorage.package], which the operations above take as
    given. *)

(** [CloudStorage.path_from_filename]: the base class has none. *)
Definition CloudStorage_path_from_filename (rid fname : string) : result string :=
  Raise NotImplementedError.

Section container_property.
Context {Container : Type}.

(** [driver.get_container(container_name=...)], libcloud's: a container or
    an exception. *)
Context (driver_get_container : string -> result Container).

(** The [_container] attribute, and how often the driver was asked. *)
Record container_cache := {
  _container : option Container;
  get_container_calls : nat;
}.

(** The [container] property, lines 75-85. *)
Definition container (container_name : string) (s : container_cache)
  : result Container * container_cache :=
  match _container s with
  | None =>
      match driver_get_container container_name with
      | Ok c =>
          (Ok c, {| _container := Some c;
                    get_container_calls := S (get_container_calls s) |})
      | Raise e =>
          (Raise e, {| _container := None;
                       get_container_calls := S (get_container_calls s) |})
      end
  | Some c => (Ok c, s)
  end.

End container_property.

Section package_property.
Context {Package : Type}.

(** [model.Package.get(reference)], CKAN's: the package or [None]. *)
Context (Package_get : value -> option Package).

(** The [package] property, lines 457-459. *)
Definition package (this : ResourceCloudStorage) : result (option Package) :=
  package_id ← getitem (resource this) "package_id";
  Ok (Package_get package_id).

End package_property.

(** [c in s] for a character and a str. *)
Fixpoint has_char (c : ascii) (s : string) : bool :=
  match s with
  | EmptyString => false
  | String x rest => Ascii.eqb x c || has_char c rest
  end.

(** ** Further definitions for stating properties *)

(** The keys [__init__] pops or assigns. *)
Definition init_keys : list string :=
  ["upload"; "clear_upload"; "multipart_name"; "url"; "url_type"; "last_modified"].


Section Specification_more.
Context `{Libraries} (env : environment).

(** The content settings the Azure path passes on: a guessed content type,
    when guessing is configured and yields a non-empty type. *)
Definition azure_content_settings (fname : string) : option string :=
  if guess_mimetype env then
    match guess_type fname with
    | Some content_type =>
        if str_truthy content_type then Some content_type else None
    | None => None
    end
  else None.

End Specification_more.

(** ** More example inputs *)

Module More.

(** An Azure deployment whose driver options lack the credentials. *)
Definition env_azure_no_key : environment := {|
  tk := {| OPTIONS := ∅;
           DRIVER := "AZURE_BLOBS";
           CONTAINER := "bucket";
           SECURE_TTL := 600;
           USE_SECURE := true;
           LEAVE_FILES := false;
           GUESS_MIMETYPE := false |};
  azure_storage_installed := true;
  boto3_installed := false;
  local_files := ∅;
  utcnow := 1700000000;
  db_resource_url := ∅;
  connection_host := "account.blob.core.windows.net";
|}.

(** A resource whose file went to S3 by multipart upload. *)
Definition posted_multipart : gmap string value :=
  {[ "id" := VStr "rid"; "package_id" := VStr "pkg";
     "multipart_name" := VStr "big.bin" ]}.




(** The uploader with the first byte of its file already read. *)
Definition half_read : ResourceCloudStorage := {|
  filename := Some "data.csv";
  old_filename := None;
  file := None;
  resource := resource Ex.uploader;
  _clear := VNone;
  file_upload := Some (Stream Ex.abc 1);
|}.

(** A driver that knows one container, and a package table with one
    package. *)
Definition one_container (name : string) : result string :=
  if String.eqb name "bucket" then Ok "bucket" else Raise ValueError.

Definition one_package (reference : value) : option string :=
  match reference with
  | VStr "pkg" => Some "the package"
  | _ => None
  end.

End More.

(** * Properties *)

(** ** Bytes and streams *)

Example md5_of_empty : MD5.hexdigest [] = "d41d8cd98f00b204e9800998ecf8427e".
Proof. vm_compute. reflexivity. Qed.

Example md5_of_abc :
  MD5.hexdigest (encode "abc") = "900150983cd24fb0d6963f7d28e17f72".
Proof. vm_compute. reflexivity. Qed.

Example os_path_join_resources :
  os_path_join "resources" ["rid"; "data.csv"] = "resources/rid/data.csv".
Proof. reflexivity. Qed.

Lemma hex_roundtrip_byte (b : byte) :
  hex_value (hex_digit (Byte.to_N b / 16)) = Some (Byte.to_N b / 16)%N /\
  hex_value (hex_digit (Byte.to_N b mod 16)) = Some (Byte.to_N b mod 16)%N.
Proof. destruct b; vm_compute; split; reflexivity. Qed.

Lemma unhexlify_hexlify (data : bytes) : unhexlify (hexlify data) = Ok data.
Proof.
  induction data as [|b rest IH]; [reflexivity|].
  cbn [hexlify unhexlify].
  destruct (hex_roundtrip_byte b) as [-> ->].
  replace (16 * (Byte.to_N b / 16) + Byte.to_N b mod 16)%N with (Byte.to_N b)
    by (rewrite (N.div_mod' (Byte.to_N b) 16) at 1; reflexivity).
  rewrite Byte.of_to_N, IH. reflexivity.
Qed.

Lemma take_N_drop_N {A} (n : N) (l : list A) :
  drop (length (take_N n l)) l = drop_N n l.
Proof.
  revert n; induction l as [|x l IH]; intros n; simpl; [reflexivity|].
  destruct (n =? 0)%N; simpl; [reflexivity|]. apply IH.
Qed.

Lemma take_N_drop_N_app {A} (n : N) (l : list A) : take_N n l ++ drop_N n l = l.
Proof.
  revert n; induction l as [|x l IH]; intros n; simpl; [reflexivity|].
  destruct (n =? 0)%N; simpl; [reflexivity|]. f_equal. apply IH.
Qed.

Lemma read_snd_unread (f : stream) (size : N) :
  unread (snd (read f size)) = drop_N size (unread f).
Proof.
  unfold read, unread, advance; simpl.
  rewrite <- drop_drop. apply take_N_drop_N.
Qed.

Lemma unread_start (f : stream) : position f = 0%nat -> unread f = contents f.
Proof. unfold unread. intros ->. reflexivity. Qed.

Lemma blocks_falsy (size : N) (data : bytes) :
  bytes_truthy (take_N size data) = false -> blocks size data = [].
Proof.
  destruct data as [|b rest]; simp blocks; [reflexivity|].
  simpl. destruct (size =? 0)%N eqn:E; simpl; [|discriminate].
  intros _. reflexivity.
Qed.

Lemma blocks_truthy (size : N) (data : bytes) :
  bytes_truthy (take_N size data) = true ->
  blocks size data = take_N size data :: blocks size (drop_N size data).
Proof.
  destruct data as [|b rest]; [discriminate|].
  simp blocks. simpl. destruct (size =? 0)%N eqn:E; simpl; [discriminate|].
  intros _. reflexivity.
Qed.

(** The blocks are non-empty and put together give the data back. *)
Lemma blocks_nonempty (size : N) (data : bytes) :
  Forall (fun block => bytes_truthy block = true) (blocks size data).
Proof.
  funelim (blocks size data); simp blocks; [constructor|constructor|].
  constructor; [|assumption].
  simpl. rewrite Hsize. reflexivity.
Qed.

Lemma blocks_concat (size : N) (data : bytes) :
  (0 < size)%N -> mjoin (blocks size data) = data.
Proof.
  intros Hpos. funelim (blocks size data); simp blocks; [reflexivity| |].
  - destruct (N.eqb_spec size 0); [lia|discriminate].
  - change (take_N size (b :: rest)
            ++ mjoin (blocks size (drop_N size (b :: rest))) = b :: rest).
    rewrite H by exact Hpos. apply take_N_drop_N_app.
Qed.

Lemma take_N_full {A} (n : N) (l : list A) :
  drop_N n l <> [] -> N.of_nat (length (take_N n l)) = n.
Proof.
  revert n; induction l as [|x l IH]; intros n; simpl; [congruence|].
  destruct (N.eqb_spec n 0) as [->|Hn]; simpl; [reflexivity|].
  intros Hrest. apply IH in Hrest. lia.
Qed.

(** Every block but the last has the full size. *)
Lemma blocks_full (size : N) (data : bytes) (i : nat) (block : bytes) :
  blocks size data !! i = Some block ->
  (S i < length (blocks size data))%nat ->
  N.of_nat (length block) = size.
Proof.
  revert i. funelim (blocks size data); simp blocks; intros i;
    [simpl; lia..|].
  pose proof (take_N_full size (b :: rest)) as Hfull.
  remember (take_N size (b :: rest)) as first eqn:Hfirst.
  remember (drop_N size (b :: rest)) as others eqn:Hothers.
  destruct i as [|i]; simpl.
  - intros [= <-] Hmore. apply Hfull.
    intros Hnil. rewrite Hnil in Hmore. simp blocks in Hmore. simpl in Hmore. lia.
  - intros Hget Hmore. apply (H block i); [exact Hget|lia].
Qed.

Example blocks_of_five :
  blocks 2 (encode "abcde") = [encode "ab"; encode "cd"; encode "e"].
Proof. reflexivity. Qed.

(** ** [_md5sum] *)

Section md5sum_facts.
Context `{Libraries}.

Lemma md5sum_loop_spec (fobj : stream) (block_count : Z) (md5string : bytes) :
  exists fobj',
    md5sum_loop fobj block_count md5string =
      Ok (block_count
          + Z.of_nat (length (blocks AWS_UPLOAD_PART_SIZE (unread fobj))),
          md5string
          ++ mjoin (md5_digest <$> blocks AWS_UPLOAD_PART_SIZE (unread fobj)),
          fobj')
    /\ contents fobj' = contents fobj.
Proof.
  funelim (md5sum_loop fobj block_count md5string).
  - (* the block is falsy: break *)
    rewrite (blocks_falsy AWS_UPLOAD_PART_SIZE (unread fobj) e).
    simpl. rewrite Z.add_0_r, app_nil_r. eexists; split; reflexivity.
  - (* a block was read: one more digest, and around the loop again *)
    rewrite (blocks_truthy AWS_UPLOAD_PART_SIZE (unread fobj) Hblock).
    unfold hexdigest in Heq. rewrite unhexlify_hexlify in Heq.
    injection Heq as <-.
    match goal with IH : exists _, _ /\ _ |- _ =>
      destruct IH as (fobj' & Hloop & Hc) end.
    rewrite read_snd_unread in Hloop.
    exists fobj'. split; [|exact Hc].
    rewrite Hloop. simpl. rewrite Nat2Z.inj_succ, <- app_assoc.
    do 3 f_equal. lia.
  - (* unhexlify of a hexdigest cannot fail *)
    unfold hexdigest in Heq. rewrite unhexlify_hexlify in Heq. discriminate.
Qed.

Lemma md5sum_unread (fobj : stream) :
  _md5sum fobj = Ok (multipart_digest (unread fobj), seek_set0 fobj).
Proof.
  unfold _md5sum.
  destruct (md5sum_loop_spec fobj 0 []) as (fobj' & -> & Hc).
  simpl. unfold multipart_digest, seek_set0. rewrite Hc. reflexivity.
Qed.

(** C7: for every binary stream, [_md5sum] returns the MD5 hex digest of
    the concatenated raw MD5 digests of the consecutive
    [AWS_UPLOAD_PART_SIZE]-byte blocks the stream yields - all of its bytes
    for a stream at offset 0 - then "-" and the number of those blocks, all
    of them non-empty, and leaves the stream at offset 0; for an empty
    stream that is the MD5 hex digest of the empty byte string followed by
    "-0". *)
Theorem md5sum_multipart_digest (fobj : stream) :
  let parts := blocks AWS_UPLOAD_PART_SIZE (unread fobj) in
  _md5sum fobj
  = Ok (hexdigest (mjoin (md5_digest <$> parts))
        +:+ "-" +:+ str (Z.of_nat (length parts)),
        seek_set0 fobj)
  /\ mjoin parts = unread fobj
  /\ unread (BytesIO (contents fobj)) = contents fobj
  /\ Forall (fun block => bytes_truthy block = true) parts
  /\ AWS_UPLOAD_PART_SIZE = (5 * 1024 * 1024)%N
  /\ tell (seek_set0 fobj) = 0
  /\ _md5sum (BytesIO []) = Ok (hexdigest [] +:+ "-0", BytesIO []).
Proof.
  intros parts.
  refine (conj _ (conj _ (conj eq_refl (conj _ (conj eq_refl (conj eq_refl _)))))).
  - apply md5sum_unread.
  - apply blocks_concat. reflexivity.
  - apply blocks_nonempty.
  - apply (md5sum_unread (BytesIO [])).
Qed.

End md5sum_facts.

Example md5sum_of_abc :
  @_md5sum example_libraries (BytesIO Ex.abc)
  = Ok ("af5da9f45af7a300e3aded972f8ff687-1", BytesIO Ex.abc).
Proof. vm_compute. reflexivity. Qed.

Example md5sum_of_nothing :
  @_md5sum example_libraries (BytesIO [])
  = Ok ("d41d8cd98f00b204e9800998ecf8427e-0", BytesIO []).
Proof. vm_compute. reflexivity. Qed.

(** ** [upload], the libcloud path *)

(** Unfolds the calls of the adapter down to the state they act on. *)
Ltac run_adapter :=
  unfold try_catch, check_already_uploaded, get_object, delete_object,
    measure_file_size, upload_object_via_stream, create_blob_from_stream,
    store, on_file_upload, self_file_upload, lift, raise,
    mbind, M_bind, mret, M_ret;
  simpl.

Section upload_facts.
Context `{Libraries} (env : environment).

Lemma check_already_uploaded_found (fname object_name : string) (st : state)
    (f : stream) (o : CloudObject) :
  remote st !! object_name = Some o ->
  file_upload (self st) = Some f ->
  position f = 0%nat ->
  check_already_uploaded env fname object_name st
  = (Ok (already_uploaded env fname (contents f) o),
     log (get_object_call object_name) st).
Proof.
  destruct st as [[fn old fl res clr fu] rem cs], f as [data pos].
  simpl. intros Hget -> ->.
  unfold already_uploaded, measured_size. run_adapter. rewrite Hget.
  unfold log; simpl.
  destruct (local_files env !! fname) as [n|]; simpl.
  - destruct (n =? obj_size o); simpl; [|reflexivity].
    unfold unread; simpl; rewrite ?drop_0.
    destruct (String.eqb (hexdigest data) (obj_hash o)); simpl; [reflexivity|].
    rewrite md5sum_unread. unfold unread; simpl; rewrite ?drop_0.
    destruct (String.eqb (multipart_digest data) (obj_hash o)); reflexivity.
  - unfold tell; simpl.
    destruct (Z.of_nat (length data) =? obj_size o); simpl; [|reflexivity].
    unfold unread; simpl; rewrite ?drop_0.
    destruct (String.eqb (hexdigest data) (obj_hash o)); simpl; [reflexivity|].
    rewrite md5sum_unread. unfold unread; simpl; rewrite ?drop_0.
    destruct (String.eqb (multipart_digest data) (obj_hash o)); reflexivity.
Qed.

Lemma check_already_uploaded_missing (fname object_name : string) (st : state) :
  remote st !! object_name = None ->
  check_already_uploaded env fname object_name st
  = (Raise ObjectDoesNotExistError, log (get_object_call object_name) st).
Proof. intros Hget. run_adapter. rewrite Hget. reflexivity. Qed.

Lemma upload_libcloud (id : string) (st : state) (fname : string) (f : stream) :
  filename (self st) = Some fname ->
  str_truthy fname = true ->
  can_use_advanced_azure env = false ->
  file_upload (self st) = Some f ->
  position f = 0%nat ->
  exists st',
    upload env id st = (Ok RNone, st') /\
    match remote st !! path_from_filename id fname with
    | Some o =>
        if already_uploaded env fname (contents f) o
        then skipped (path_from_filename id fname) st st'
        else uploaded (path_from_filename id fname) (contents f) st st'
    | None => uploaded (path_from_filename id fname) (contents f) st st'
    end.
Proof.
  intros Hfn Htruthy Hazure Hfu Hpos.
  unfold upload. rewrite Hfn. simpl. rewrite Htruthy, Hazure.
  set (P := path_from_filename id fname).
  unfold try_catch at 1, mbind at 1, M_bind at 1, self_file_upload.
  rewrite Hfu. unfold mbind at 1, M_bind at 1, try_catch at 1.
  destruct (remote st !! P) as [o|] eqn:Hget.
  - rewrite (check_already_uploaded_found _ _ _ _ _ Hget Hfu Hpos).
    destruct (already_uploaded env fname (contents f) o).
    + eexists; split; [reflexivity|]. split; reflexivity.
    + run_adapter. rewrite Hfu. simpl. rewrite (unread_start _ Hpos).
      eexists; split; [reflexivity|]. split; simpl; [reflexivity|].
      rewrite <- app_assoc. reflexivity.
  - rewrite (check_already_uploaded_missing _ _ _ Hget). simpl.
    run_adapter. rewrite Hfu. simpl. rewrite (unread_start _ Hpos).
    eexists; split; [reflexivity|]. split; simpl; [reflexivity|].
    rewrite <- app_assoc. reflexivity.
Qed.

(** The stored object [o] has the size [upload] measures for the file and
    one of the two digests of its contents. *)
Lemma already_uploaded_true (fname : string) (data : bytes) (o : CloudObject) :
  already_uploaded env fname data o = true <->
  obj_size o = measured_size env fname data
  /\ (obj_hash o = hexdigest data \/ obj_hash o = multipart_digest data).
Proof.
  unfold already_uploaded.
  rewrite andb_true_iff, orb_true_iff, Z.eqb_eq, !String.eqb_eq.
  intuition congruence.
Qed.

(** C1, amended: on the libcloud path, for an upload stream at offset 0,
    [upload] returns without uploading and leaves the container as it was
    when an object exists at [path_from_filename id filename] whose size
    equals the size [upload] measures - that of a local file named like
    the upload where [os.path.isfile] finds one, otherwise that of the
    uploaded file - and whose hash equals the MD5 hex digest of the file's
    contents or the multipart digest of [_md5sum]; in every other case it
    stores the file under that path through [upload_object_via_stream]. *)
Theorem upload_skips_or_stores (id : string) (st : state) (fname : string)
    (f : stream) :
  filename (self st) = Some fname ->
  str_truthy fname = true ->
  can_use_advanced_azure env = false ->
  file_upload (self st) = Some f ->
  position f = 0%nat ->
  let object_name := path_from_filename id fname in
  let matches (o : CloudObject) :=
    obj_size o = measured_size env fname (contents f)
    /\ (obj_hash o = hexdigest (contents f)
        \/ Ok (obj_hash o, f) = _md5sum f) in
  exists st',
    upload env id st = (Ok RNone, st')
    /\ (forall o,
          remote st !! object_name = Some o -> matches o ->
          skipped object_name st st')
    /\ ((forall o, remote st !! object_name = Some o -> ~ matches o) ->
        uploaded object_name (contents f) st st').
Proof.
  intros Hfn Htruthy Hazure Hfu Hpos object_name matches.
  assert (Hmatches : forall o,
             matches o <-> already_uploaded env fname (contents f) o = true).
  { intros o. unfold matches. rewrite already_uploaded_true, md5sum_unread.
    rewrite (unread_start f Hpos).
    replace (seek_set0 f) with f
      by (destruct f; simpl in Hpos; subst; reflexivity).
    intuition congruence. }
  destruct (upload_libcloud id st fname f Hfn Htruthy Hazure Hfu Hpos)
    as (st' & Hrun & Hcase).
  fold object_name in Hcase.
  exists st'. split; [exact Hrun|]. split.
  - intros o Hget Ho. rewrite Hget in Hcase.
    apply Hmatches in Ho. rewrite Ho in Hcase. exact Hcase.
  - intros Hnone. destruct (remote st !! object_name) as [o|]; [|exact Hcase].
    destruct (already_uploaded env fname (contents f) o) eqn:Ho; [|exact Hcase].
    destruct (Hnone o eq_refl). apply Hmatches. exact Ho.
Qed.

End upload_facts.

(** The theorem at work: data.csv is skipped where it is already stored,
    and stored where the container is empty. *)
Lemma upload_skips_or_stores_witness :
  (exists st',
      @upload example_libraries Ex.env "rid" (Ex.container_with_abc Ex.uploader)
      = (Ok RNone, st')
      /\ skipped Ex.object_name (Ex.container_with_abc Ex.uploader) st')
  /\ (exists st',
        @upload example_libraries Ex.env "rid" (Ex.empty_container Ex.uploader)
        = (Ok RNone, st')
        /\ @uploaded example_libraries Ex.object_name Ex.abc
             (Ex.empty_container Ex.uploader) st').
Proof.
  split.
  - destruct (@upload_skips_or_stores example_libraries Ex.env "rid"
                (Ex.container_with_abc Ex.uploader) "data.csv" (BytesIO Ex.abc)
                eq_refl eq_refl eq_refl eq_refl eq_refl)
      as (st' & Hrun & Hskip & _).
    exists st'. split; [exact Hrun|].
    apply (Hskip Ex.stored_abc); [reflexivity|].
    split; [reflexivity|]. left. vm_compute. reflexivity.
  - destruct (@upload_skips_or_stores example_libraries Ex.env "rid"
                (Ex.empty_container Ex.uploader) "data.csv" (BytesIO Ex.abc)
                eq_refl eq_refl eq_refl eq_refl eq_refl)
      as (st' & Hrun & _ & Hstore).
    exists st'. split; [exact Hrun|].
    apply Hstore. intros o Hget. vm_compute in Hget. discriminate Hget.
Defined.

(** C1 as stated fails: the stored data.csv has the size and the MD5 of the
    upload, and still [upload] uploads again, because a local file of the
    same name has another size. *)
Lemma upload_skip_counterexample :
  let st := Ex.container_with_abc Ex.uploader in
  let st' := snd (@upload example_libraries Ex.env_local_file "rid" st) in
  can_use_advanced_azure Ex.env_local_file = false
  /\ @path_from_filename example_libraries "rid" "data.csv" = Ex.object_name
  /\ remote st !! Ex.object_name = Some Ex.stored_abc
  /\ obj_size Ex.stored_abc = Z.of_nat (length Ex.abc)
  /\ obj_hash Ex.stored_abc = @hexdigest example_libraries Ex.abc
  /\ calls st' = [get_object_call Ex.object_name;
                  upload_object_via_stream_call Ex.object_name Ex.abc].
Proof. vm_compute. repeat split; reflexivity. Qed.

(** ** [get_url_by_path] *)

Section url_facts.
Context `{Libraries} (env : environment).

Lemma secure_branch_false :
  secure_branch env = false ->
  can_use_advanced_azure env && use_secure_urls env = false
  /\ can_use_advanced_aws env && use_secure_urls env = false.
Proof.
  unfold secure_branch.
  destruct (use_secure_urls env), (can_use_advanced_azure env),
    (can_use_advanced_aws env); simpl; intros; split; congruence.
Qed.

Lemma get_url_by_path_unsigned (path : string) (st : state) :
  secure_branch env = false ->
  get_url_by_path env path st
  = (match remote st !! path with
     | None => Ok None
     | Some obj => unsigned_url env path obj
     end,
     log (get_object_call path) st).
Proof.
  intros Hplain. apply secure_branch_false in Hplain as [Ha Hb].
  unfold get_url_by_path. rewrite Ha, Hb.
  run_adapter.
  destruct (remote st !! path) as [obj|]; simpl; [|reflexivity].
  unfold unsigned_url.
  destruct (get_object_cdn_url obj) as [u|e]; simpl; [reflexivity|].
  destruct e; simpl; try reflexivity.
  destruct (str_contains "S3" (driver_name env)); [reflexivity|].
  unfold has_key, getitem.
  destruct (obj_extra obj !! "url"); reflexivity.
Qed.


End url_facts.



(** ** What [upload] does to the container, on every path *)

Section effects.
Context `{Libraries} (env : environment).

Lemma no_delete_nil : no_delete [].
Proof. intros name Hin. by apply elem_of_nil in Hin. Qed.

Lemma no_delete_cons (c : call) (new : list call) :
  (forall name, c <> delete_object_call name) -> no_delete new ->
  no_delete (c :: new).
Proof.
  intros Hc Hnew name Hin. apply elem_of_cons in Hin as [Heq|Hin].
  - by apply (Hc name).
  - by apply (Hnew name).
Qed.

Lemma kept_by_insert (rem : gmap string CloudObject) (name object_name : string)
    (o : CloudObject) :
  is_Some (rem !! name) -> is_Some (<[object_name := o]> rem !! name).
Proof. intros Hsome. apply lookup_insert_is_Some'. by right. Qed.

Ltac no_deletes :=
  repeat (apply no_delete_cons; [intros ?; discriminate|]); apply no_delete_nil.

Ltac effects_done :=
  simpl; rewrite <- ?app_assoc; simpl;
  first [ eexists; split; [reflexivity|]
        | exists []; split; [by rewrite app_nil_r|] ];
  (split; [first [discriminate | congruence]|]);
  left; split;
  [ no_deletes
  | intros ? ?; simpl; first [assumption | by apply kept_by_insert] ].

(** The calls [upload] adds, that [ObjectDoesNotExistError] never comes
    out of it, and that it deletes nothing unless it was told to clear an
    old upload and files are not to be left. *)
Lemma upload_effects (id : string) (st : state) :
  exists new,
    calls (snd (upload env id st)) = calls st ++ new
    /\ fst (upload env id st) <> Raise ObjectDoesNotExistError
    /\ ((no_delete new /\ nothing_removed st (snd (upload env id st)))
        \/ (truthy (_clear (self st)) = true
            /\ opt_truthy (old_filename (self st)) = true
            /\ leave_files env = false)).
Proof.
  destruct st as [[fn old fl res clr fu] rem cs].
  unfold upload; simpl.
  destruct (opt_truthy fn) eqn:Hfn.
  - destruct (can_use_advanced_azure env).
    + run_adapter. unfold getitem.
      repeat case_match; simplify_eq/=; effects_done.
    + run_adapter. destruct fu as [f|]; simpl; [|effects_done].
      destruct (rem !! path_from_filename id (default "" fn)) as [o|]; simpl;
        [|effects_done].
      destruct (local_files env !! default "" fn) as [n|]; simpl.
      * destruct (n =? obj_size o); simpl; [|effects_done].
        destruct (String.eqb _ _); simpl; [effects_done|].
        rewrite md5sum_unread; simpl.
        destruct (String.eqb _ _); simpl; effects_done.
      * destruct (_ =? obj_size o); simpl; [|effects_done].
        destruct (String.eqb _ _); simpl; [effects_done|].
        rewrite md5sum_unread; simpl.
        destruct (String.eqb _ _); simpl; effects_done.
  - destruct (truthy clr && opt_truthy old && negb (leave_files env)) eqn:Hclear;
      [|effects_done].
    apply andb_true_iff in Hclear as [Hclear Hleave].
    apply andb_true_iff in Hclear as [Hclr Hold].
    apply negb_true_iff in Hleave.
    run_adapter.
    destruct (rem !! path_from_filename id (default "" old)) as [o|] eqn:Hget;
      simpl; [destruct (rem !! obj_name o); simpl|];
      rewrite <- ?app_assoc; simpl;
      (eexists; split; [reflexivity|]; split; [discriminate|]; right; auto).
Qed.

(** [__init__] records an old filename only for a resource whose upload is
    being cleared, and then sets no filename. *)
Lemma old_filename_recorded_on_clear (posted : gmap string value)
    (this : ResourceCloudStorage) :
  __init__ env posted = Ok this ->
  opt_truthy (old_filename this) = true ->
  truthy (_clear this) = true /\ filename this = None.
Proof.
  unfold __init__, mbind, result_bind, bind. intros Hinit Hold.
  repeat case_match; simplify_eq/=.
  match goal with Hc : _ && _ = true |- _ =>
    apply andb_true_iff in Hc as [Hc _]; auto end.
Qed.

(** C6: whatever [upload] is called on, with [leave_files] configured true
    it makes no [delete_object] call and every object of the container is
    still there afterwards; and an object is deleted only when
    [clear_upload] was requested, an old filename was recorded at
    construction, and [leave_files] is false. *)
Theorem upload_deletes_only_a_cleared_upload (id : string) (st : state) :
  exists new,
    calls (snd (upload env id st)) = calls st ++ new
    /\ (leave_files env = true ->
        no_delete new /\ nothing_removed st (snd (upload env id st)))
    /\ (forall name,
          delete_object_call name ∈ new
          \/ (is_Some (remote st !! name)
              /\ remote (snd (upload env id st)) !! name = None) ->
          truthy (_clear (self st)) = true
          /\ opt_truthy (old_filename (self st)) = true
          /\ leave_files env = false).
Proof.
  destruct (upload_effects id st) as (new & Hcalls & _ & Hcases).
  exists new. split; [exact Hcalls|]. split.
  - intros Hleave. destruct Hcases as [Hkept|(_ & _ & Hno)]; [exact Hkept|].
    congruence.
  - intros name Hdeleted.
    destruct Hcases as [[Hnone Hkept]|Hclear]; [|exact Hclear].
    destruct Hdeleted as [Hin|[Hsome Hgone]].
    + destruct (Hnone name Hin).
    + apply Hkept in Hsome. rewrite Hgone in Hsome.
      destruct Hsome as [? Hsome]. discriminate.
Qed.

(** C5: [ObjectDoesNotExistError] from the container does not reach the
    caller.  Where no secure-URL branch applies, [get_url_by_path] returns
    [None] for a path that holds no object; in the clear-upload case
    [upload] returns normally when the old object is already absent; and
    neither [upload] nor, with a driver whose own [get_object_cdn_url]
    does not raise it, [get_url_by_path] and [get_url_from_filename] ever
    end in [ObjectDoesNotExistError]. *)
Theorem ObjectDoesNotExistError_is_caught :
  (forall path st,
      secure_branch env = false ->
      remote st !! path = None ->
      get_url_by_path env path st
      = (Ok None, log (get_object_call path) st))
  /\ (forall id st old,
        opt_truthy (filename (self st)) = false ->
        truthy (_clear (self st)) = true ->
        old_filename (self st) = Some old ->
        str_truthy old = true ->
        leave_files env = false ->
        remote st !! path_from_filename id old = None ->
        upload env id st
        = (Ok RNone, log (get_object_call (path_from_filename id old)) st))
  /\ (forall id st, fst (upload env id st) <> Raise ObjectDoesNotExistError)
  /\ ((forall o, get_object_cdn_url o <> Raise ObjectDoesNotExistError) ->
      forall path rid fname st,
        fst (get_url_by_path env path st) <> Raise ObjectDoesNotExistError
        /\ fst (get_url_from_filename env rid fname st)
           <> Raise ObjectDoesNotExistError).
Proof.
  split; [|split; [|split]].
  - intros path st Hplain Hget.
    rewrite (get_url_by_path_unsigned env path st Hplain), Hget.
    reflexivity.
  - intros id st old Hfn Hclr Hold Htruthy Hleave Hget.
    unfold upload. rewrite Hfn, Hclr, Hold. simpl. rewrite Htruthy, Hleave. simpl.
    run_adapter. rewrite Hget. reflexivity.
  - intros id st. destruct (upload_effects id st) as (_ & _ & Hres & _).
    exact Hres.
  - intros Hdriver.
    assert (Hurl : forall path st,
               fst (get_url_by_path env path st) <> Raise ObjectDoesNotExistError).
    { intros path st. destruct (secure_branch env) eqn:Hbranch.
      - unfold secure_branch in Hbranch.
        apply andb_true_iff in Hbranch as [Hs Hadv].
        unfold get_url_by_path. rewrite Hs, !andb_true_r.
        run_adapter. unfold getitem.
        destruct (can_use_advanced_azure env); simpl in Hadv; rewrite ?Hadv;
          repeat case_match; simplify_eq/=; discriminate.
      - rewrite (get_url_by_path_unsigned env path st Hbranch).
        simpl. destruct (remote st !! path) as [obj|]; [|discriminate].
        unfold unsigned_url. specialize (Hdriver obj).
        destruct (get_object_cdn_url obj) as [u|e]; [discriminate|].
        destruct e; try discriminate; [congruence|].
        repeat case_match; discriminate. }
    intros path rid fname st. split; [apply Hurl|].
    unfold get_url_from_filename. apply Hurl.
Qed.

End effects.

(** The theorem at work: where files are to be left, an adapter told to
    clear an old upload deletes nothing; and where it does delete, it was
    told to clear, had an old filename, and files were not to be left. *)
Lemma upload_deletes_only_a_cleared_upload_witness :
  (let st := Ex.container_with_abc Ex.clearer in
   exists new,
     calls (snd (@upload example_libraries Ex.env_secure "rid" st))
     = calls st ++ new
     /\ no_delete new
     /\ nothing_removed st
          (snd (@upload example_libraries Ex.env_secure "rid" st)))
  /\ (truthy (_clear Ex.clearer) = true
      /\ opt_truthy (old_filename Ex.clearer) = true
      /\ leave_files Ex.env = false).
Proof.
  split.
  - destruct (@upload_deletes_only_a_cleared_upload example_libraries
                Ex.env_secure "rid" (Ex.container_with_abc Ex.clearer))
      as (new & Hcalls & Hleave & _).
    exists new. split; [exact Hcalls|]. exact (Hleave eq_refl).
  - destruct (@upload_deletes_only_a_cleared_upload example_libraries
                Ex.env "rid" (Ex.container_with_old Ex.clearer))
      as (new & Hcalls & _ & Honly).
    apply (Honly Ex.old_object_name). right.
    split; [exists Ex.stored_old|]; vm_compute; reflexivity.
Defined.

Example upload_deletes_the_cleared_upload :
  @upload example_libraries Ex.env "rid" (Ex.container_with_old Ex.clearer)
  = (Ok RNone,
     {| self := Ex.clearer; remote := ∅;
        calls := [get_object_call Ex.old_object_name;
                  delete_object_call Ex.old_object_name] |}).
Proof. vm_compute. reflexivity. Qed.

(** The theorem at work: the old object is gone already, and [upload]
    returns normally; nothing is stored, and [get_url_by_path] returns
    [None]. *)
Lemma ObjectDoesNotExistError_is_caught_witness :
  @get_url_by_path example_libraries Ex.env Ex.object_name
    (Ex.empty_container Ex.clearer)
  = (Ok None,
     log (get_object_call Ex.object_name) (Ex.empty_container Ex.clearer))
  /\ @upload example_libraries Ex.env "rid" (Ex.empty_container Ex.clearer)
     = (Ok RNone,
        log (get_object_call "resources/rid/old.csv")
          (Ex.empty_container Ex.clearer))
  /\ fst (@get_url_by_path example_libraries Ex.env Ex.object_name
            (Ex.container_with_abc Ex.clearer))
     <> Raise ObjectDoesNotExistError.
Proof.
  pose proof (@ObjectDoesNotExistError_is_caught example_libraries Ex.env)
    as (Hurl & Hclear & _ & Hnever).
  split; [|split].
  - exact (Hurl Ex.object_name (Ex.empty_container Ex.clearer) eq_refl eq_refl).
  - exact (Hclear "rid" (Ex.empty_container Ex.clearer) "old.csv"
             eq_refl eq_refl eq_refl eq_refl eq_refl eq_refl).
  - refine (proj1 (Hnever _ Ex.object_name "rid" "data.csv"
                     (Ex.container_with_abc Ex.clearer))).
    intros o. discriminate.
Defined.

(** ** Where an uploaded file ends up *)

Section stores.
Context `{Libraries} (env : environment).




End stores.


(** ** Where the adapter hashes *)

Section hashing.
Context `{Libraries} (env : environment).


End hashing.



(** ** The adapter on the example inputs *)

Example init_of_an_upload :
  @__init__ example_libraries Ex.env Ex.resource_with_upload = Ok Ex.uploader.
Proof. vm_compute. reflexivity. Qed.

Example init_of_a_cleared_upload :
  @__init__ example_libraries Ex.env
    {[ "id" := VStr "rid"; "clear_upload" := VBool true ]}
  = Ok Ex.clearer.
Proof. vm_compute. reflexivity. Qed.

Example upload_into_an_empty_container :
  @upload example_libraries Ex.env "rid" (Ex.empty_container Ex.uploader)
  = (Ok RNone,
     {| self := {| filename := Some "data.csv"; old_filename := None;
                   file := None; resource := resource Ex.uploader;
                   _clear := VNone;
                   file_upload := Some (Stream Ex.abc 3) |};
        remote := {[ Ex.object_name := Ex.stored_abc ]};
        calls := [get_object_call Ex.object_name;
                  upload_object_via_stream_call Ex.object_name Ex.abc] |}).
Proof. vm_compute. reflexivity. Qed.

Example upload_through_azure :
  fst (@upload example_libraries Ex.env_azure "rid"
         (Ex.container_with_abc Ex.uploader))
  = Ok (RBlobProperties Ex.object_name)
  /\ calls (snd (@upload example_libraries Ex.env_azure "rid"
                   (Ex.container_with_abc Ex.uploader)))
     = [create_blob_from_stream_call "bucket" Ex.object_name Ex.abc None].
Proof. vm_compute. split; reflexivity. Qed.

Example azure_shared_access_url :
  fst (@get_url_by_path example_libraries Ex.env_azure Ex.object_name
         (Ex.empty_container Ex.uploader))
  = Ok (Some (make_blob_url
                {| account_name := "account"; account_key := "s3cr3t" |}
                "bucket" Ex.object_name
                {| sas_container_name := "bucket";
                   sas_blob_name := Ex.object_name;
                   sas_expiry := 1700000600;
                   sas_permission := READ |})).
Proof. vm_compute. reflexivity. Qed.

Example s3_bucket_url :
  fst (@get_url_by_path example_libraries Ex.env Ex.object_name
         (Ex.container_with_abc Ex.uploader))
  = Ok (Some (url_str "https://s3.amazonaws.com/bucket/resources/rid/data.csv")).
Proof. vm_compute. reflexivity. Qed.

(** * Further properties *)

Lemma has_char_app (c : ascii) (a b : string) :
  has_char c (a +:+ b) = has_char c a || has_char c b.
Proof.
  induction a as [|x a IH]; simpl; [reflexivity|].
  rewrite IH. apply orb_assoc.
Qed.

Lemma hex_digit_no_dash (n : N) : Ascii.eqb (hex_digit n) "-" = false.
Proof.
  destruct n as [|p]; [reflexivity|].
  do 5 (try destruct p as [p|p|]); reflexivity.
Qed.

Lemma hexlify_no_dash (data : bytes) : has_char "-" (hexlify data) = false.
Proof.
  induction data as [|b rest IH]; simpl; [reflexivity|].
  rewrite !hex_digit_no_dash, IH. reflexivity.
Qed.

Lemma prefix_app (p s : string) : String.prefix p (p +:+ s) = true.
Proof.
  induction p as [|c p IH]; simpl; [by destruct s|].
  rewrite IH. destruct (ascii_dec c c); [reflexivity|congruence].
Qed.

(** ** More on [upload]: what it keeps and what it touches *)

Section upload_more.
Context `{Libraries} (env : environment).

(** With no local file of that name, the check rewinds the stream and
    compares against all of its bytes, wherever the cursor was. *)
Lemma check_already_uploaded_no_local (fname object_name : string) (st : state)
    (f : stream) (o : CloudObject) :
  local_files env !! fname = None ->
  remote st !! object_name = Some o ->
  file_upload (self st) = Some f ->
  check_already_uploaded env fname object_name st
  = (Ok (already_uploaded env fname (contents f) o),
     set_file_upload (seek_set0 f) (log (get_object_call object_name) st)).
Proof.
  destruct st as [[fn old fl res clr fu] rem cs], f as [data pos].
  simpl. intros Hlocal Hget ->.
  unfold already_uploaded, measured_size. run_adapter. rewrite Hget, Hlocal.
  unfold log, tell; simpl.
  destruct (Z.of_nat (length data) =? obj_size o); simpl; [|reflexivity].
  unfold unread; simpl; rewrite ?drop_0.
  destruct (String.eqb (hexdigest data) (obj_hash o)); simpl; [reflexivity|].
  rewrite md5sum_unread. unfold unread; simpl; rewrite ?drop_0.
  destruct (String.eqb (multipart_digest data) (obj_hash o)); reflexivity.
Qed.

Lemma upload_libcloud_unfold (id : string) (st : state) (fname : string)
    (f : stream) :
  filename (self st) = Some fname ->
  str_truthy fname = true ->
  can_use_advanced_azure env = false ->
  file_upload (self st) = Some f ->
  upload env id st
  = match try_catch (check_already_uploaded env fname (path_from_filename id fname))
            is_ObjectDoesNotExistError (fun _ => mret false) st with
    | (Ok true, st1) => (Ok RNone, st1)
    | (Ok false, st1) =>
        match upload_object_via_stream (path_from_filename id fname) st1 with
        | (Ok _, st2) => (Ok RNone, st2)
        | (Raise e, st2) => (Raise e, st2)
        end
    | (Raise e, st1) => (Raise e, st1)
    end.
Proof.
  intros Hfn Htruthy Hazure Hfu.
  unfold upload. rewrite Hfn. simpl. rewrite Htruthy, Hazure.
  unfold try_catch at 1, mbind at 1, M_bind at 1, self_file_upload.
  rewrite Hfu. unfold mbind at 1, M_bind at 1.
  destruct (try_catch _ _ _ st) as [[[|]|e] st1]; simpl.
  - reflexivity.
  - unfold mbind, M_bind, mret, M_ret.
    destruct (upload_object_via_stream _ st1) as [[?|e] st2]; simpl; [reflexivity|].
    unfold raise. destruct (is_ValueError_or_InvalidCredsError e); reflexivity.
  - unfold raise. destruct (is_ValueError_or_InvalidCredsError e); reflexivity.
Qed.


Lemma upload_stores_no_local (id : string) (st : state) (fname : string)
    (f : stream) (o : CloudObject) :
  filename (self st) = Some fname ->
  str_truthy fname = true ->
  can_use_advanced_azure env = false ->
  file_upload (self st) = Some f ->
  local_files env !! fname = None ->
  remote st !! path_from_filename id fname = Some o ->
  already_uploaded env fname (contents f) o = false ->
  exists st',
    upload env id st = (Ok RNone, st')
    /\ uploaded (path_from_filename id fname) (contents f) st st'.
Proof.
  intros Hfn Htruthy Hazure Hfu Hlocal Hget Hmatch.
  rewrite (upload_libcloud_unfold id st fname f Hfn Htruthy Hazure Hfu).
  unfold try_catch.
  rewrite (check_already_uploaded_no_local _ _ _ _ _ Hlocal Hget Hfu), Hmatch.
  run_adapter. unfold unread; simpl; rewrite drop_0.
  eexists. split; [reflexivity|]. split; simpl; [reflexivity|].
  rewrite <- app_assoc. reflexivity.
Qed.

Lemma upload_stores_missing (id : string) (st : state) (fname : string)
    (f : stream) :
  filename (self st) = Some fname ->
  str_truthy fname = true ->
  can_use_advanced_azure env = false ->
  file_upload (self st) = Some f ->
  remote st !! path_from_filename id fname = None ->
  exists st',
    upload env id st = (Ok RNone, st')
    /\ uploaded (path_from_filename id fname) (unread f) st st'.
Proof.
  intros Hfn Htruthy Hazure Hfu Hget.
  rewrite (upload_libcloud_unfold id st fname f Hfn Htruthy Hazure Hfu).
  unfold try_catch.
  rewrite (check_already_uploaded_missing _ _ _ _ Hget). simpl.
  run_adapter. rewrite Hfu. simpl.
  eexists. split; [reflexivity|]. split; simpl; [reflexivity|].
  rewrite <- app_assoc. reflexivity.
Qed.

End upload_more.

Section upload_invariants.
Context `{Libraries} (env : environment).




End upload_invariants.

(** ** [__init__], branch by branch *)

Section init_more.
Context `{Libraries} (env : environment).

(** X3: whenever [__init__] returns, the resource dict has lost "upload",
    "clear_upload" and "multipart_name", [_clear] is what "clear_upload"
    held, and every key other than those three and "url", "url_type",
    "last_modified" has the value it was posted with. *)
Theorem init_pops_the_form_fields (posted : gmap string value)
    (this : ResourceCloudStorage) :
  __init__ env posted = Ok this ->
  resource this !! "upload" = None
  /\ resource this !! "clear_upload" = None
  /\ resource this !! "multipart_name" = None
  /\ _clear this = default VNone (posted !! "clear_upload")
  /\ (forall key, key ∉ init_keys -> resource this !! key = posted !! key).
Proof.
  unfold __init__, mbind, result_bind, bind. intros Hinit.
  assert (Hclear : default VNone (delete "upload" posted !! "clear_upload")
                   = default VNone (posted !! "clear_upload")).
  { by rewrite lookup_delete_ne. }
  assert (Hkeys : forall key, key ∉ init_keys ->
             key <> "upload" /\ key <> "clear_upload" /\ key <> "multipart_name"
             /\ key <> "url" /\ key <> "url_type" /\ key <> "last_modified").
  { intros key Hkey. unfold init_keys in Hkey. set_solver. }
  repeat case_match; simplify_eq/=.
  all: refine (conj _ (conj _ (conj _ (conj Hclear _)))).
  all: try (intros key Hkey; destruct (Hkeys key Hkey) as (?&?&?&?&?&?)).
  all: rewrite ?lookup_insert_ne by done.
  all: rewrite ?lookup_delete_ne by done.
  all: try apply lookup_delete_eq; try reflexivity.
Qed.





End init_more.

(** ** More on [upload] and [get_url_by_path] *)

Section adapter_more.
Context `{Libraries} (env : environment).

(** X1: the advanced Azure path and the advanced AWS path never both apply:
    a driver named AZURE_BLOBS has no S3 in its name. *)
Theorem advanced_paths_exclude_each_other :
  can_use_advanced_azure env && can_use_advanced_aws env = false.
Proof.
  unfold can_use_advanced_azure, can_use_advanced_aws.
  destruct (String.eqb_spec (driver_name env) "AZURE_BLOBS") as [->|_];
    [|reflexivity].
  destruct (azure_storage_installed env); reflexivity.
Qed.



(** X9: credentials are read before anything is done.  On the advanced
    Azure path [upload] raises [KeyError] for a missing "key" or "secret"
    driver option, and on a secure-URL branch so does [get_url_by_path];
    no call has been made and nothing has changed. *)
Theorem missing_credentials_raise_KeyError (id path : string) (st : state) :
  (opt_truthy (filename (self st)) = true ->
   can_use_advanced_azure env = true ->
   (driver_options env !! "key" = None ->
    upload env id st = (Raise (KeyError "key"), st))
   /\ (is_Some (driver_options env !! "key") ->
       driver_options env !! "secret" = None ->
       upload env id st = (Raise (KeyError "secret"), st)))
  /\ (secure_branch env = true ->
      (driver_options env !! "key" = None ->
       get_url_by_path env path st = (Raise (KeyError "key"), st))
      /\ (is_Some (driver_options env !! "key") ->
          driver_options env !! "secret" = None ->
          get_url_by_path env path st = (Raise (KeyError "secret"), st))).
Proof.
  split.
  - intros Hfn Hazure. unfold upload. rewrite Hfn, Hazure.
    run_adapter. unfold getitem. split.
    + intros ->. reflexivity.
    + intros [key ->] ->. reflexivity.
  - intros Hbranch. unfold secure_branch in Hbranch.
    apply andb_true_iff in Hbranch as [Hs Hadv].
    unfold get_url_by_path. rewrite Hs, !andb_true_r.
    run_adapter. unfold getitem.
    destruct (can_use_advanced_azure env); simpl in Hadv; rewrite ?Hadv;
      (split; [intros ->; reflexivity|intros [key ->] ->; reflexivity]).
Qed.

(** X11: on the advanced Azure path [upload] never looks for an existing
    object: whatever the container holds, its one call is
    [create_blob_from_stream] with what is left to read of the file, under
    [path_from_filename id filename] in the configured container, with a
    content type only when guessing is configured and yields one. *)
Theorem azure_upload_always_stores (id : string) (st : state)
    (fname key secret : string) (f : stream) :
  filename (self st) = Some fname ->
  str_truthy fname = true ->
  can_use_advanced_azure env = true ->
  driver_options env !! "key" = Some key ->
  driver_options env !! "secret" = Some secret ->
  file_upload (self st) = Some f ->
  fst (upload env id st) = Ok (RBlobProperties (path_from_filename id fname))
  /\ calls (snd (upload env id st))
     = calls st ++ [create_blob_from_stream_call (container_name env)
                      (path_from_filename id fname) (unread f)
                      (azure_content_settings env fname)]
  /\ (obj_data <$> remote (snd (upload env id st)) !! path_from_filename id fname)
     = Some (unread f).
Proof.
  intros Hfn Htruthy Hazure Hkey Hsecret Hfu.
  unfold upload, azure_content_settings. rewrite Hfn. simpl.
  rewrite Htruthy, Hazure.
  run_adapter. unfold getitem. rewrite Hkey, Hsecret, Hfu. simpl.
  rewrite Hfu. simpl.
  split; [reflexivity|]. split; [reflexivity|].
  by rewrite lookup_insert_eq.
Qed.


(** X18: what [upload] stores on the libcloud path is what is left to read.
    If no object exists at the path the cursor is not moved beforehand, so
    a partly read file is stored from the cursor on; if one exists that
    does not pass the check, and no local file bears the name, the check
    has rewound the stream and the whole file is stored. *)
Theorem upload_stores_what_is_left_to_read (id : string) (st : state)
    (fname : string) (f : stream) :
  filename (self st) = Some fname ->
  str_truthy fname = true ->
  can_use_advanced_azure env = false ->
  file_upload (self st) = Some f ->
  (remote st !! path_from_filename id fname = None ->
   exists st',
     upload env id st = (Ok RNone, st')
     /\ uploaded (path_from_filename id fname) (unread f) st st')
  /\ (forall o,
        remote st !! path_from_filename id fname = Some o ->
        local_files env !! fname = None ->
        already_uploaded env fname (contents f) o = false ->
        exists st',
          upload env id st = (Ok RNone, st')
          /\ uploaded (path_from_filename id fname) (contents f) st st').
Proof.
  intros Hfn Htruthy Hazure Hfu. split.
  - intros Hget. by apply upload_stores_missing.
  - intros o Hget Hlocal Hmatch. by apply (upload_stores_no_local env id st fname f o).
Qed.


(** X16: a file that was just uploaded has a URL.  On the libcloud path,
    where no secure-URL branch applies, [get_url_from_filename] for the
    same id and filename finds the object after [upload] and returns what
    the driver or the fallbacks make of it, never [None]. *)
Theorem uploaded_file_has_a_url (id : string) (st : state) (fname : string)
    (f : stream) :
  filename (self st) = Some fname ->
  str_truthy fname = true ->
  can_use_advanced_azure env = false ->
  file_upload (self st) = Some f ->
  position f = 0%nat ->
  secure_branch env = false ->
  exists st' o,
    upload env id st = (Ok RNone, st')
    /\ remote st' !! path_from_filename id fname = Some o
    /\ fst (get_url_from_filename env id fname st')
       = unsigned_url env (path_from_filename id fname) o
    /\ fst (get_url_from_filename env id fname st') <> Ok None.
Proof.
  intros Hfn Htruthy Hazure Hfu Hpos Hplain.
  set (P := path_from_filename id fname).
  destruct (upload_libcloud env id st fname f Hfn Htruthy Hazure Hfu Hpos)
    as (st' & Hrun & Hcase).
  fold P in Hcase.
  assert (exists o, remote st' !! P = Some o) as [o Hget'].
  { destruct (remote st !! P) as [o|] eqn:Hget;
      [destruct (already_uploaded env fname (contents f) o)|];
      destruct Hcase as [Hremote _]; rewrite Hremote.
    - eauto.
    - eexists. apply lookup_insert_eq.
    - eexists. apply lookup_insert_eq. }
  exists st', o. split; [exact Hrun|]. split; [exact Hget'|].
  unfold get_url_from_filename. fold P.
  rewrite (get_url_by_path_unsigned env P st' Hplain), Hget'. simpl.
  split; [reflexivity|].
  unfold unsigned_url. repeat case_match; discriminate.
Qed.

End adapter_more.

(** ** Digests, paths and the two properties *)

Lemma drop_N_length {A} (n : N) (l : list A) :
  N.of_nat (length (drop_N n l)) = (N.of_nat (length l) - n)%N.
Proof.
  revert n; induction l as [|x l IH]; intros n; simpl; [lia|].
  destruct (N.eqb_spec n 0) as [->|Hn]; simpl; [lia|].
  rewrite IH. lia.
Qed.

Lemma blocks_count (size : N) (data : bytes) :
  (0 < size)%N ->
  N.of_nat (length (blocks size data))
  = ((N.of_nat (length data) + size - 1) / size)%N.
Proof.
  intros Hpos. funelim (blocks size data); simp blocks.
  - simpl. symmetry. apply N.div_small. lia.
  - destruct (N.eqb_spec size 0); [lia|discriminate].
  - pose proof (drop_N_length size (b :: rest)) as Hrest.
    assert (Hn : (0 < N.of_nat (length (b :: rest)))%N) by (simpl; lia).
    remember (N.of_nat (length (b :: rest))) as n eqn:En.
    remember (drop_N size (b :: rest)) as others eqn:Hothers.
    remember (take_N size (b :: rest)) as first eqn:Hfirst.
    change (length (first :: blocks size others))
      with (S (length (blocks size others))).
    rewrite Nat2N.inj_succ, (H Hpos), Hrest.
    destruct (N.le_gt_cases n size) as [Hle|Hgt].
    + replace (n - size)%N with 0%N by lia.
      replace ((0 + size - 1) / size)%N with 0%N
        by (symmetry; apply N.div_small; lia).
      apply (N.div_unique _ _ 1 (n - 1)); lia.
    + replace (n + size - 1)%N with ((n - size + size - 1) + 1 * size)%N by lia.
      rewrite N.div_add by lia. lia.
Qed.

Section digests.
Context `{Libraries}.

(** X12: the MD5 hex digest of one file is never the multipart digest of
    another: a hex digest has no dash in it.  So a stored hash passes at
    most one of the two comparisons of [upload]. *)
Theorem plain_and_multipart_digests_differ (data data' : bytes) :
  hexdigest data <> multipart_digest data'
  /\ has_char "-" (hexdigest data) = false
  /\ forall fobj digest fobj',
       _md5sum fobj = Ok (digest, fobj') -> has_char "-" digest = true.
Proof.
  assert (Hplain : forall d, has_char "-" (hexdigest d) = false).
  { intros d. apply hexlify_no_dash. }
  assert (Hmulti : forall d, has_char "-" (multipart_digest d) = true).
  { intros d. unfold multipart_digest. rewrite !has_char_app. simpl.
    apply orb_true_r. }
  split; [|split].
  - intros Heq. pose proof (Hplain data) as Hp. rewrite Heq, Hmulti in Hp.
    discriminate.
  - apply Hplain.
  - intros fobj digest fobj' Hrun. rewrite md5sum_unread in Hrun.
    injection Hrun as <- _. apply Hmulti.
Qed.

(** X13: the count after the dash is the number of parts of
    [AWS_UPLOAD_PART_SIZE] bytes the file makes, the last one perhaps
    short: the length divided by 5*1024*1024, rounded up.  A non-empty
    file of at most that size has one part, and its digest is the MD5 of
    its raw MD5 followed by "-1". *)
Theorem multipart_digest_counts_the_parts (data : bytes) :
  (exists digest,
      _md5sum (BytesIO data)
      = Ok (digest +:+ "-"
            +:+ str (Z.of_N ((N.of_nat (length data) + 5242880 - 1) / 5242880)),
            BytesIO data))
  /\ (data <> [] ->
      (N.of_nat (length data) <= 5242880)%N ->
      _md5sum (BytesIO data)
      = Ok (hexdigest (md5_digest data) +:+ "-1", BytesIO data)).
Proof.
  split.
  - rewrite md5sum_unread. unfold multipart_digest.
    change (unread (BytesIO data)) with data.
    assert (Hcount : Z.of_nat (length (blocks AWS_UPLOAD_PART_SIZE data))
                     = Z.of_N ((N.of_nat (length data) + 5242880 - 1) / 5242880)).
    { rewrite <- nat_N_Z. f_equal.
      rewrite blocks_count by reflexivity. reflexivity. }
    cbv zeta. rewrite Hcount. eexists. reflexivity.
  - intros Hne Hle. rewrite md5sum_unread. unfold multipart_digest.
    change (unread (BytesIO data)) with data.
    assert (Hone : blocks AWS_UPLOAD_PART_SIZE data = [data]).
    { pose proof (blocks_concat AWS_UPLOAD_PART_SIZE data eq_refl) as Hcat.
      pose proof (blocks_count AWS_UPLOAD_PART_SIZE data eq_refl) as Hcount.
      assert (length (blocks AWS_UPLOAD_PART_SIZE data) = 1%nat) as Hlen.
      { apply Nat2N.inj. rewrite Hcount.
        change AWS_UPLOAD_PART_SIZE with 5242880%N.
        change (N.of_nat 1) with 1%N. symmetry.
        apply (N.div_unique _ _ 1 (N.of_nat (length data) - 1));
          destruct data; simpl in *; try congruence; lia. }
      destruct (blocks AWS_UPLOAD_PART_SIZE data) as [|blk [|? ?]];
        try discriminate.
      simpl in Hcat. rewrite app_nil_r in Hcat. by subst. }
    rewrite Hone. simpl. rewrite app_nil_r. reflexivity.
Qed.

(** X15: [path_from_filename] keeps the object under "resources/" followed
    by the resource id as long as neither the id nor the munged filename
    begins with a slash; a munged filename that begins with one is the
    whole path, and an id that begins with one drops "resources". *)
Theorem path_from_filename_stays_under_resources (rid fname : string) :
  (startswith rid "/" = false ->
   startswith (munge_filename fname) "/" = false ->
   startswith (path_from_filename rid fname) ("resources/" +:+ rid) = true)
  /\ (startswith (munge_filename fname) "/" = true ->
      path_from_filename rid fname = munge_filename fname)
  /\ (startswith rid "/" = true ->
      startswith (munge_filename fname) "/" = false ->
      startswith (path_from_filename rid fname) rid = true).
Proof.
  unfold path_from_filename, os_path_join. cbn [fold_left].
  set (name := munge_filename fname).
  assert (Hfirst : startswith rid "/" = false ->
                   join_step "resources" rid = "resources/" +:+ rid).
  { intros Hrid. unfold join_step, sep. rewrite Hrid. reflexivity. }
  assert (Habs : startswith rid "/" = true -> join_step "resources" rid = rid).
  { intros Hrid. unfold join_step, sep. rewrite Hrid. reflexivity. }
  assert (Hsecond : forall path,
             startswith name "/" = false ->
             startswith (join_step path name) path = true).
  { intros path Hname. unfold join_step, sep. rewrite Hname. unfold startswith.
    destruct (_ || _); apply prefix_app. }
  split; [|split].
  - intros Hrid Hname. rewrite (Hfirst Hrid). apply Hsecond, Hname.
  - intros Hname. unfold join_step at 1. unfold sep. rewrite Hname. reflexivity.
  - intros Hrid Hname. rewrite (Habs Hrid). apply Hsecond, Hname.
Qed.

End digests.

(** X17: the [container] property asks the driver once.  After an access
    that returned a container, every later access returns the same one
    without another [get_container] call; after one that raised, nothing
    is cached and the next access asks the driver again. *)
Theorem container_is_fetched_once {Container : Type}
    (driver_get_container : string -> result Container)
    (container_name : string) (s : container_cache) :
  let r := fst (container driver_get_container container_name s) in
  let s' := snd (container driver_get_container container_name s) in
  (forall c,
      r = Ok c ->
      container driver_get_container container_name s' = (Ok c, s'))
  /\ (forall e,
        r = Raise e ->
        _container s' = None
        /\ get_container_calls
             (snd (container driver_get_container container_name s'))
           = S (get_container_calls s'))
  /\ (get_container_calls s' <= S (get_container_calls s))%nat.
Proof.
  unfold container.
  destruct (_container s) as [c0|] eqn:Hcache.
  - simpl. rewrite Hcache. split; [|split].
    + intros c [= <-]. reflexivity.
    + intros e [=].
    + lia.
  - destruct (driver_get_container container_name) as [c|e] eqn:Hget; simpl;
      (split; [|split]); try lia.
    + intros c' [= <-]. reflexivity.
    + intros e [=].
    + intros c' [=].
    + intros e' [= <-]. split; reflexivity.
Qed.

Section package_facts.
Context `{Libraries} (env : environment) {Package : Type}
  (Package_get : value -> option Package).

(** X14: [package] looks up the package id the resource was posted with:
    [__init__] never touches "package_id".  Posted without one, the
    property raises [KeyError]. *)
Theorem package_of_the_posted_resource (posted : gmap string value)
    (this : ResourceCloudStorage) :
  __init__ env posted = Ok this ->
  package Package_get this
  = match posted !! "package_id" with
    | Some package_id => Ok (Package_get package_id)
    | None => Raise (KeyError "package_id")
    end.
Proof.
  intros Hinit. unfold package, getitem.
  assert (Hsame : resource this !! "package_id" = posted !! "package_id").
  { revert Hinit. unfold __init__, mbind, result_bind, bind. intros Hinit.
    repeat case_match; simplify_eq/=;
      rewrite ?lookup_insert_ne by done; by rewrite ?lookup_delete_ne by done. }
  rewrite Hsame. destruct (posted !! "package_id"); reflexivity.
Qed.

End package_facts.

(** ** The further properties at work *)


Lemma init_pops_the_form_fields_witness :
  resource Ex.uploader !! "upload" = None
  /\ resource Ex.uploader !! "clear_upload" = None
  /\ resource Ex.uploader !! "multipart_name" = None
  /\ _clear Ex.uploader = VNone
  /\ resource Ex.uploader !! "id" = Some (VStr "rid").
Proof.
  assert (Hinit : @__init__ example_libraries Ex.env Ex.resource_with_upload
                  = Ok Ex.uploader)
    by (vm_compute; reflexivity).
  destruct (@init_pops_the_form_fields example_libraries Ex.env
              Ex.resource_with_upload Ex.uploader Hinit)
    as (Hup & Hclear & Hmulti & Hc & Hkeys).
  refine (conj Hup (conj Hclear (conj Hmulti (conj Hc _)))).
  apply (Hkeys "id"). unfold init_keys.
  intros Hin. repeat (apply elem_of_cons in Hin as [Hin|Hin]; [discriminate Hin|]).
  by apply elem_of_nil in Hin.
Defined.





Lemma missing_credentials_raise_KeyError_witness :
  @upload example_libraries More.env_azure_no_key "rid"
    (Ex.empty_container Ex.uploader)
  = (Raise (KeyError "key"), Ex.empty_container Ex.uploader)
  /\ @get_url_by_path example_libraries More.env_azure_no_key Ex.object_name
       (Ex.empty_container Ex.uploader)
     = (Raise (KeyError "key"), Ex.empty_container Ex.uploader).
Proof.
  destruct (@missing_credentials_raise_KeyError example_libraries
              More.env_azure_no_key "rid" Ex.object_name
              (Ex.empty_container Ex.uploader))
    as [Hupload Hurl].
  split.
  - exact (proj1 (Hupload eq_refl eq_refl) eq_refl).
  - exact (proj1 (Hurl eq_refl) eq_refl).
Defined.

Lemma azure_upload_always_stores_witness :
  calls (snd (@upload example_libraries Ex.env_azure "rid"
                (Ex.container_with_abc Ex.uploader)))
  = [create_blob_from_stream_call "bucket" Ex.object_name Ex.abc None].
Proof.
  exact (proj1 (proj2
           (@azure_upload_always_stores example_libraries Ex.env_azure "rid"
              (Ex.container_with_abc Ex.uploader) "data.csv" "account" "s3cr3t"
              (BytesIO Ex.abc) eq_refl eq_refl eq_refl eq_refl eq_refl eq_refl))).
Defined.


Lemma upload_stores_what_is_left_to_read_witness :
  exists st',
    @upload example_libraries Ex.env "rid" (Ex.empty_container More.half_read)
    = (Ok RNone, st')
    /\ @uploaded example_libraries Ex.object_name (encode "bc")
         (Ex.empty_container More.half_read) st'.
Proof.
  exact (proj1 (@upload_stores_what_is_left_to_read example_libraries Ex.env
                  "rid" (Ex.empty_container More.half_read) "data.csv"
                  (Stream Ex.abc 1) eq_refl eq_refl eq_refl eq_refl)
           eq_refl).
Defined.


Lemma uploaded_file_has_a_url_witness :
  exists st' o,
    @upload example_libraries Ex.env "rid" (Ex.empty_container Ex.uploader)
    = (Ok RNone, st')
    /\ remote st' !! Ex.object_name = Some o
    /\ fst (@get_url_from_filename example_libraries Ex.env "rid" "data.csv" st')
       <> Ok None.
Proof.
  destruct (@uploaded_file_has_a_url example_libraries Ex.env "rid"
              (Ex.empty_container Ex.uploader) "data.csv" (BytesIO Ex.abc)
              eq_refl eq_refl eq_refl eq_refl eq_refl eq_refl)
    as (st' & o & Hrun & Hget & _ & Hsome).
  exists st', o. exact (conj Hrun (conj Hget Hsome)).
Defined.

Lemma plain_and_multipart_digests_differ_witness :
  has_char "-" "af5da9f45af7a300e3aded972f8ff687-1" = true.
Proof.
  exact (proj2 (proj2 (@plain_and_multipart_digests_differ example_libraries
                         Ex.abc Ex.abc))
           (BytesIO Ex.abc) _ (BytesIO Ex.abc) md5sum_of_abc).
Defined.

Lemma multipart_digest_counts_the_parts_witness :
  @_md5sum example_libraries (BytesIO Ex.abc)
  = Ok (@hexdigest example_libraries (@md5_digest example_libraries Ex.abc)
        +:+ "-1",
        BytesIO Ex.abc).
Proof.
  assert (Hne : Ex.abc <> []).
  { intros Hnil. vm_compute in Hnil. discriminate Hnil. }
  assert (Hle : (N.of_nat (length Ex.abc) <= 5242880)%N).
  { vm_compute. discriminate. }
  exact (proj2 (@multipart_digest_counts_the_parts example_libraries Ex.abc)
           Hne Hle).
Defined.

Lemma path_from_filename_stays_under_resources_witness :
  startswith (@path_from_filename example_libraries "rid" "data.csv")
    "resources/rid" = true
  /\ startswith (@path_from_filename example_libraries "/etc" "passwd") "/etc"
     = true.
Proof.
  split.
  - exact (proj1 (@path_from_filename_stays_under_resources example_libraries
                    "rid" "data.csv") eq_refl eq_refl).
  - exact (proj2 (proj2 (@path_from_filename_stays_under_resources
                           example_libraries "/etc" "passwd"))
             eq_refl eq_refl).
Defined.

Lemma container_is_fetched_once_witness :
  let s := {| _container := None; get_container_calls := 0 |} in
  let s' := snd (container More.one_container "bucket" s) in
  container More.one_container "bucket" s' = (Ok "bucket", s')
  /\ _container (snd (container More.one_container "nowhere" s)) = None.
Proof.
  split.
  - exact (proj1 (container_is_fetched_once More.one_container "bucket"
                    {| _container := None; get_container_calls := 0 |})
             "bucket" eq_refl).
  - exact (proj1 (proj1 (proj2 (container_is_fetched_once More.one_container
                                  "nowhere"
                                  {| _container := None;
                                     get_container_calls := 0 |}))
                    ValueError eq_refl)).
Defined.

Lemma package_of_the_posted_resource_witness :
  exists this,
    @__init__ example_libraries Ex.env_secure More.posted_multipart = Ok this
    /\ package More.one_package this = Ok (Some "the package").
Proof.
  destruct (@__init__ example_libraries Ex.env_secure More.posted_multipart)
    as [this|e] eqn:Hinit; [|vm_compute in Hinit; discriminate Hinit].
  exists this. split; [reflexivity|].
  exact (@package_of_the_posted_resource example_libraries Ex.env_secure string
           More.one_package More.posted_multipart this Hinit).
Defined.
